(** * NPL client: match lifecycle, day buckets, local persistence, REST client

    A shallow embedding of the pure logic of the NPL single-page client:

    - [Num]: the arithmetic of numbers that may be [NaN];
    - [Resolver]: [useCountdown], [pad] and [ProgressBar] of the Upcoming page;
    - [DayFilter]: the seven day buckets and the [filtered] memo of the
      Upcoming page;
    - [Storage]: the localStorage helpers [getMatches], [saveMatches],
      [upsertMatch], [deleteMatch];
    - [Api]: the [request] helper of the REST client;
    - [Guard]: the [RequireAdmin] route guard;
    - [Admin]: the list updater run after "Set Live".

    JavaScript values that reach this logic come from JSON (API responses,
    localStorage), so the universe of values is the JSON one; [undefined] is
    the [None] of an [option value]. *)

From Stdlib Require Import ZArith QArith Qminmax Ascii String List Lia.
From stdpp Require Import base option list gmap strings.
From Stdlib Require Import Lqa.

Set Warnings "-register-all".

Local Open Scope string_scope.
Local Open Scope Z_scope.

(** ** JavaScript values and completions *)

Module JS.

(** JSON values.  Numbers are exact rationals (every double is one); objects
    are finite maps from property names to values. *)
Inductive value : Type :=
| VNull
| VBool (b : bool)
| VNum (q : Q)
| VStr (s : string)
| VArr (l : list value)
| VObj (o : gmap string value).

(** What a throwing expression throws. *)
Inductive exn : Type :=
| TypeError
| SyntaxError
| NetworkError
| Error (message : string).

(** The result of evaluating an expression: a value or a thrown exception. *)
Inductive completion (A : Type) : Type :=
| Normal (a : A)
| Throw (e : exn).
Arguments Normal {A} a.
Arguments Throw {A} e.

Definition bind {A B} (c : completion A) (k : A -> completion B) : completion B :=
  match c with
  | Normal a => k a
  | Throw e => Throw e
  end.

(** [try { c } catch { h }] *)
Definition try_catch {A} (c : completion A) (h : exn -> completion A) : completion A :=
  match c with
  | Normal a => Normal a
  | Throw e => h e
  end.

Notation "x <- c ;; k" := (bind c (fun x => k))
  (at level 100, c at next level, right associativity).

(** [a === b] on defined values.  Two arrays or objects are equal only when
    they are the same reference; every array or object compared in this
    development comes out of a separate parse or literal, so the answer for
    them is [false]. *)
Definition strict_eq (a b : value) : bool :=
  match a, b with
  | VNull, VNull => true
  | VBool x, VBool y => Bool.eqb x y
  | VNum x, VNum y => Qeq_bool x y
  | VStr x, VStr y => String.eqb x y
  | _, _ => false
  end.

(** [a === b] where either side may be [undefined]. *)
Definition strict_eq_u (a b : option value) : bool :=
  match a, b with
  | None, None => true
  | Some x, Some y => strict_eq x y
  | _, _ => false
  end.

(** Values compared by content: everything but arrays and objects. *)
Definition primitive (a : option value) : bool :=
  match a with
  | Some (VArr _) | Some (VObj _) => false
  | _ => true
  end.

(** ToBoolean. *)
Definition truthy (a : option value) : bool :=
  match a with
  | None => false
  | Some VNull => false
  | Some (VBool b) => b
  | Some (VNum q) => negb (Qeq_bool q 0)
  | Some (VStr s) => negb (String.eqb s "")
  | Some (VArr _) => true
  | Some (VObj _) => true
  end.

(** [v.k] for a property name [k] that no built-in prototype defines ([id],
    [_id], [status], [date], [role]): reading it off [null] or [undefined]
    throws, off an object looks it up, off any other value gives
    [undefined]. *)
Definition get (v : option value) (k : string) : completion (option value) :=
  match v with
  | None => Throw TypeError
  | Some VNull => Throw TypeError
  | Some (VObj o) => Normal (o !! k)
  | Some _ => Normal None
  end.

(** [v?.k] *)
Definition get_opt (v : option value) (k : string) : option value :=
  match v with
  | Some (VObj o) => o !! k
  | _ => None
  end.

(** [arr.map(f)] with a callback that may throw. *)
Fixpoint mapM {A B} (f : A -> completion B) (l : list A) : completion (list B) :=
  match l with
  | [] => Normal []
  | x :: xs => y <- f x ;; ys <- mapM f xs ;; Normal (y :: ys)
  end.

(** [arr.filter(p)] with a callback that may throw. *)
Fixpoint filterM {A} (p : A -> completion bool) (l : list A) : completion (list A) :=
  match l with
  | [] => Normal []
  | x :: xs =>
      keep <- p x ;; ys <- filterM p xs ;;
      Normal (if keep then x :: ys else ys)
  end.

(** [arr.findIndex(p)]: the first index whose element satisfies [p], or
    [-1]; the callback is not run past that index. *)
Fixpoint findIndex_from {A} (p : A -> completion bool) (l : list A) (i : Z) : completion Z :=
  match l with
  | [] => Normal (-1)
  | x :: xs =>
      hit <- p x ;;
      if hit then Normal i else findIndex_from p xs (i + 1)
  end.

Definition findIndex {A} (p : A -> completion bool) (l : list A) : completion Z :=
  findIndex_from p l 0.

End JS.

Import JS.

(** ** Numbers that may be NaN

    The numbers this logic computes with are integers (time values, their
    differences and floored quotients) and rationals (percentages), or
    [NaN]: the time value of an Invalid Date is [NaN], and so is whatever is
    computed from it.  [None] is [NaN]. *)

Module Num.

(** [a - b] *)
Definition sub (a b : option Z) : option Z :=
  match a, b with
  | Some x, Some y => Some (x - y)
  | _, _ => None
  end.

(** [Math.max(a, b)]: [NaN] when an argument is. *)
Definition max (a b : option Z) : option Z :=
  match a, b with
  | Some x, Some y => Some (Z.max x y)
  | _, _ => None
  end.

(** [Math.floor(a / k)] for an integer [k] other than 0. *)
Definition floor_div (a : option Z) (k : Z) : option Z := (fun x => x / k) <$> a.

(** [a % k]: the remainder has the sign of [a]. *)
Definition rem (a : option Z) (k : Z) : option Z := (fun x => Z.rem x k) <$> a.

(** [a <= b] and [a > b]: a comparison with [NaN] is false. *)
Definition leb (a b : option Z) : bool :=
  match a, b with
  | Some x, Some y => x <=? y
  | _, _ => false
  end.

Definition gtb (a b : option Z) : bool :=
  match a, b with
  | Some x, Some y => y <? x
  | _, _ => false
  end.

(** [Math.min(a, b)] and [Math.max(a, b)] on numbers that need not be
    integers. *)
Definition qmin (a b : option Q) : option Q :=
  match a, b with
  | Some x, Some y => Some (Qmin x y)
  | _, _ => None
  end.

Definition qmax (a b : option Q) : option Q :=
  match a, b with
  | Some x, Some y => Some (Qmax x y)
  | _, _ => None
  end.

End Num.

(** ** The match lifecycle resolver (Upcoming page) *)

Module Resolver.

(** The character of a decimal digit [0..9]. *)
Definition digit (d : Z) : ascii := ascii_of_nat (48 + Z.to_nat d).

Fixpoint digits (fuel : nat) (n : Z) (acc : string) : string :=
  match fuel with
  | O => acc
  | S fuel' =>
      let acc' := String (digit (n mod 10)) acc in
      if n <? 10 then acc' else digits fuel' (n / 10) acc'
  end.

(** [n.toString()] for an integer [n]: its decimal numeral.  A numeral has
    no more digits than [n] has bits, which bounds the recursion. *)
Definition toString (n : Z) : string :=
  if n <? 0
  then String "-" (digits (S (Z.to_nat (Z.log2 (- n)))) (- n) "")
  else digits (S (Z.to_nat (Z.log2 n))) n "".

(** The first [n] characters of [fill] repeated for ever, [rest] being what
    is left of the current copy. *)
Fixpoint cycle (n : nat) (fill rest : string) : string :=
  match n with
  | O => ""
  | S n' =>
      match rest with
      | String c r => String c (cycle n' fill r)
      | EmptyString =>
          match fill with
          | String c r => String c (cycle n' fill r)
          | EmptyString => ""
          end
      end
  end.

(** [s.padStart(target, fill)] *)
Definition padStart (target : nat) (fill : string) (s : string) : string :=
  cycle (target - String.length s) fill fill +:+ s.

(** [n.toString()] for a number that is an integer or [NaN]. *)
Definition toString_number (n : option Z) : string :=
  match n with
  | Some z => toString z
  | None => "NaN"
  end.

(** [function pad(n) { return n.toString().padStart(2, "0"); }] *)
Definition pad (n : option Z) : string := padStart 2 "0" (toString_number n).

(** What [useCountdown] returns. *)
Record countdown : Type := Countdown {
  diffMs : option Z;
  countdownLabel : string;
  state : string
}.

(** [useCountdown(startDate, status, now)].  A date is given by its time
    value in milliseconds: [startDate] is [None] when it is an Invalid Date,
    [now] is the clock's [new Date()], which is always valid.  The
    difference of two time values, its quotients by 1000, 60000 and 3600000
    and [Math.floor] of those are exact integers. *)
Definition useCountdown (startDate : option Z) (status : value) (now : Z) : countdown :=
  let diffMs := Num.sub startDate (Some now) in
  let abs := Num.max diffMs (Some 0) in
  if strict_eq status (VStr "completed") then
    Countdown diffMs "Ended" "completed"
  else if strict_eq status (VStr "live") then
    Countdown diffMs "In Progress" "live"
  else if Num.leb diffMs (Some 0) then
    Countdown diffMs "Starting" "live"
  else
    let state := if Num.leb diffMs (Some (10 * 60 * 1000)) then "soon" else "scheduled" in
    let seconds := Num.rem (Num.floor_div abs 1000) 60 in
    let minutes := Num.rem (Num.floor_div abs (60 * 1000)) 60 in
    let hours := Num.floor_div abs (60 * 60 * 1000) in
    let countdownLabel :=
      if Num.gtb hours (Some 0)
      then pad hours +:+ ":" +:+ pad minutes +:+ ":" +:+ pad seconds
      else pad minutes +:+ ":" +:+ pad seconds in
    Countdown diffMs countdownLabel state.

(** The [status = "scheduled"] default of the destructuring in [MatchCard]:
    it applies when the property is [undefined], and only then. *)
Definition card_status (m : gmap string value) : value :=
  match m !! "status" with
  | None => VStr "scheduled"
  | Some v => v
  end.

(** [MatchCard]'s call of the resolver for a match object whose date and
    start time give the date [startDate]. *)
Definition card_countdown (m : gmap string value) (startDate : option Z) (now : Z) : countdown :=
  useCountdown startDate (card_status m) now.

(** [ProgressBar({ totalMs, remainingMs, state })]: the percentage before
    clamping, [NaN] when it is computed from a remaining time that is.  The
    arithmetic is exact, on rationals. *)
Definition ProgressBar_pct (totalMs : Q) (remainingMs : option Q) (state : string) : option Q :=
  if String.eqb state "live" || String.eqb state "completed"
  then Some 100%Q
  else (fun r => (100 - (r / totalMs) * 100)%Q) <$> remainingMs.

(** [Math.min(Math.max(pct, 3), 100)] for a percentage that is a number. *)
Definition clamp (pct : Q) : Q := Qmin (Qmax pct 3%Q) 100%Q.

(** The number rendered in the bar's [width]: [Math.min(Math.max(pct, 3),
    100)], which is [NaN] when [pct] is. *)
Definition ProgressBar (totalMs : Q) (remainingMs : option Q) (state : string) : option Q :=
  Num.qmin (Num.qmax (ProgressBar_pct totalMs remainingMs state) (Some 3%Q)) (Some 100%Q).

(** The two-hour window [MatchCard] passes as [totalMs]. *)
Definition windowMs : Z := 2 * 60 * 60 * 1000.

(** The bar [MatchCard] renders for a countdown: none for a completed match
    ([None]), else [ProgressBar] over the two-hour window with
    [remainingMs = Math.min(diffMs, 2 * 60 * 60 * 1000)], whose width is a
    number or [NaN]. *)
Definition card_progress (c : countdown) : option (option Q) :=
  if String.eqb (state c) "completed" then None
  else Some (ProgressBar (inject_Z windowMs)
                         (Num.qmin (inject_Z <$> diffMs c) (Some (inject_Z windowMs)))
                         (state c)).

End Resolver.

(** ** The day buckets of the Upcoming page *)

Module DayFilter.

(** [s.split(sep)] for a separator of one character. *)
Fixpoint split (sep : ascii) (s : string) : list string :=
  match s with
  | EmptyString => [EmptyString]
  | String c r =>
      if Ascii.eqb c sep then EmptyString :: split sep r
      else match split sep r with
           | h :: t => String c h :: t
           | [] => [String c EmptyString]
           end
  end.

(** White space that [parseInt] skips, among the characters below 256. *)
Definition is_space (c : ascii) : bool :=
  let n := nat_of_ascii c in
  ((9 <=? n) && (n <=? 13) || (n =? 32) || (n =? 160))%nat.

Fixpoint skip_space (s : string) : string :=
  match s with
  | String c r => if is_space c then skip_space r else s
  | EmptyString => s
  end.

Definition digit_val (c : ascii) : option Z :=
  let n := Z.of_nat (nat_of_ascii c) in
  if (48 <=? n) && (n <=? 57) then Some (n - 48) else None.

(** The value of the longest prefix of decimal digits, [acc] being what has
    been read; [None] when there is no digit. *)
Fixpoint read_digits (s : string) (acc : option Z) : option Z :=
  match s with
  | String c r =>
      match digit_val c with
      | Some d => read_digits r (Some (10 * default 0 acc + d))
      | None => acc
      end
  | EmptyString => acc
  end.

(** [parseInt(s, 10)]; [None] is [NaN].  The result is the exact integer:
    rounding to a double does not change which results equal a calendar
    field. *)
Definition parseInt (s : string) : option Z :=
  match skip_space s with
  | String "-" r => Z.opp <$> read_digits r None
  | String "+" r => read_digits r None
  | t => read_digits t None
  end.

(** What the getters of a valid [Date] return: [getFullYear()],
    [getMonth()] (from 0) and [getDate()] (from 1). *)
Record date : Type := Date { getFullYear : Z; getMonth : Z; getDate : Z }.

Definition is_leap (y : Z) : bool :=
  (y mod 4 =? 0) && (negb (y mod 100 =? 0) || (y mod 400 =? 0)).

Definition days_in_month (y m : Z) : Z :=
  if m =? 1 then (if is_leap y then 29 else 28)
  else if (m =? 3) || (m =? 5) || (m =? 8) || (m =? 10) then 30
  else 31.

(** A calendar day as the getters of a valid [Date] can give it. *)
Definition valid_date (d : date) : Prop :=
  0 <= getMonth d <= 11 /\ 1 <= getDate d <= days_in_month (getFullYear d) (getMonth d).

Definition next_day (d : date) : date :=
  if getDate d <? days_in_month (getFullYear d) (getMonth d)
  then Date (getFullYear d) (getMonth d) (getDate d + 1)
  else if getMonth d <? 11
       then Date (getFullYear d) (getMonth d + 1) 1
       else Date (getFullYear d + 1) 0 1.

(** [new Date(now.getFullYear(), now.getMonth(), now.getDate() + i)]: the
    constructor carries the overflow of the day into the month and the
    year, which names the [i]-th day after today. *)
Definition day_after (today : date) (i : nat) : date := Nat.iter i next_day today.

(** The [days] memo: today and the six days that follow. *)
Definition days (today : date) : list date := day_after today <$> seq 0 7.

(** [parts[i]] of an array of numbers; a missing element and [NaN] are both
    [None], neither is [===] to a number. *)
Definition at_index (parts : list (option Z)) (i : nat) : option Z := mjoin (parts !! i).

(** [a === b] for a number [a] that may be [NaN] and an integer [b]. *)
Definition num_eq (a : option Z) (b : Z) : bool :=
  match a with
  | Some x => x =? b
  | None => false
  end.

(** The date text splits on "-" into exactly three components that
    [parseInt] reads as numbers, which it does of every text that starts
    with a number. *)
Definition three_numbers (s : string) : bool :=
  let dateParts := parseInt <$> split "-" s in
  (length dateParts =? 3)%nat && forallb (fun p => bool_decide (is_Some p)) dateParts.

(** Whether the match object [m] has a text as its date. *)
Definition has_date_text (m : value) : Prop :=
  exists o s, m = VObj o /\ o !! "date" = Some (VStr s).

(** The callback of [filter] in the [filtered] memo.  [m.date] throws when
    [m] is [null]; [.split] throws when the date is not a string. *)
Definition in_bucket (target : date) (m : value) : completion bool :=
  d <- get (Some m) "date" ;;
  match d with
  | Some (VStr s) =>
      let dateParts := parseInt <$> split "-" s in
      if negb (length dateParts =? 3)%nat then Normal false
      else Normal (num_eq (at_index dateParts 0) (getFullYear target)
                   && num_eq (Z.pred <$> at_index dateParts 1) (getMonth target)
                   && num_eq (at_index dateParts 2) (getDate target))
  | _ => Throw TypeError
  end.

(** The [filtered] memo: [(effectiveMatches || []).filter(...)] against
    [days[selectedDayIndex]]. *)
Definition filtered (effectiveMatches : option (list value)) (days : list date)
    (selectedDayIndex : nat) : completion (list value) :=
  match days !! selectedDayIndex with
  | None => Throw TypeError
  | Some target => filterM (in_bucket target) (default [] effectiveMatches)
  end.

End DayFilter.

(** ** The localStorage persistence path *)

Module Storage.

Definition KEY : string := "npl_matches_v1".

(** A text kept in localStorage, given by what [JSON.parse] makes of it:
    [Malformed raw] is a text [raw] that does not parse (the empty text is
    one), [Json doc] a text that parses to [doc]. *)
Inductive item : Type :=
| Malformed (raw : string)
| Json (doc : value).

Definition JSON_parse (raw : item) : completion value :=
  match raw with
  | Malformed _ => Throw SyntaxError
  | Json doc => Normal doc
  end.

(** [JSON.stringify(v)] for a JSON value [v]: the text that parses back to
    [v]. *)
Definition JSON_stringify (v : value) : item := Json v.

(** The browser's localStorage: its items, and whether the page may use it
    at all (when it may not, every access throws). *)
Record storage : Type := Store {
  available : bool;
  items : gmap string item
}.

Definition getItem (k : string) (localStorage : storage) : completion (option item) :=
  if available localStorage then Normal (items localStorage !! k)
  else Throw (Error "SecurityError").

Definition setItem (k : string) (v : item) (localStorage : storage) : completion storage :=
  if available localStorage
  then Normal (Store true (<[k := v]> (items localStorage)))
  else Throw (Error "SecurityError").

(** [!raw] for what [getItem] returned: [null] and the empty text. *)
Definition falsy_item (raw : option item) : bool :=
  match raw with
  | None => true
  | Some (Malformed s) => String.eqb s ""
  | Some (Json _) => false
  end.

(** An entry off which a property can be read: anything but [null]. *)
Definition readable (e : value) : Prop := e <> VNull.

(** [getMatches()] *)
Definition getMatches (localStorage : storage) : completion (list value) :=
  try_catch
    (raw <- getItem KEY localStorage ;;
     if falsy_item raw then Normal []
     else
       data <- match raw with
               | Some t => JSON_parse t
               | None => Throw SyntaxError
               end ;;
       Normal (match data with VArr l => l | _ => [] end))
    (fun _ => Normal []).

(** [saveMatches(matches)] *)
Definition saveMatches (matches : option (list value)) (localStorage : storage)
    : completion storage :=
  setItem KEY (JSON_stringify (VArr (default [] matches))) localStorage.

(** [upsertMatch(match)] *)
Definition upsertMatch (match_ : value) (localStorage : storage) : completion storage :=
  lst <- getMatches localStorage ;;
  idx <- findIndex (fun m =>
                      a <- get (Some m) "id" ;;
                      b <- get (Some match_) "id" ;;
                      Normal (strict_eq_u a b)) lst ;;
  let lst' :=
    if 0 <=? idx then <[Z.to_nat idx := match_]> lst else (lst ++ [match_])%list in
  saveMatches (Some lst') localStorage.

(** [deleteMatch(id)] *)
Definition deleteMatch (id : option value) (localStorage : storage) : completion storage :=
  all <- getMatches localStorage ;;
  lst <- filterM (fun m =>
                    a <- get (Some m) "id" ;;
                    Normal (negb (strict_eq_u a id))) all ;;
  saveMatches (Some lst) localStorage.

End Storage.

(** ** The REST client *)

Module Api.

(** What [request] reads of a [Response]: its status, its status text, the
    text of its body and the value that body denotes as JSON, if any. *)
Record response : Type := Response {
  status : Z;
  statusText : string;
  text : string;
  body_json : option value
}.

(** [res.json()]: resolves to the value of the body, or rejects with a
    SyntaxError when the body is not JSON. *)
Definition json (res : response) : completion value :=
  match body_json res with
  | Some v => Normal v
  | None => Throw SyntaxError
  end.

(** [res.ok]: the status is in the range 200-299. *)
Definition ok (res : response) : bool := (200 <=? status res) && (status res <=? 299).

(** [request(path, options)], from what [fetch] settled to.  A rejected
    promise is a [Throw]. *)
Definition request (fetched : completion response) : completion value :=
  res <- fetched ;;
  if negb (ok res) then
    Throw (Error (if truthy (Some (VStr (text res))) then text res else statusText res))
  else if status res =? 204 then Normal VNull
  else json res.

End Api.

(** ** The admin route guard *)

Module Guard.

(** What the guard renders: [<Navigate to replace state={{ from }} />] or
    its children. *)
Inductive element (A : Type) : Type :=
| Navigate (to : string) (replace : bool) (from : string)
| Children (children : A).
Arguments Navigate {A} to replace from.
Arguments Children {A} children.

(** The session store holds no token: [AuthProvider] starts from
    [localStorage.getItem(TOKEN_KEY) || null] and keeps the key only
    [if (token)], so no token is a token that is not truthy. *)
Definition token_absent (token : option value) : Prop := truthy token = false.

(** [user.role] is 'admin'. *)
Definition is_admin (user : option value) : Prop :=
  get_opt user "role" = Some (VStr "admin").

(** [RequireAdmin({ children })] for the [token] and [user] of the session
    store and the [location.pathname] of the router. *)
Definition RequireAdmin {A} (token user : option value) (pathname : string) (children : A)
    : element A :=
  if negb (truthy token)
     || negb (strict_eq_u (get_opt user "role") (Some (VStr "admin")))
  then Navigate "/login" true pathname
  else Children children.

End Guard.

(** ** The admin list after "Set Live" *)

Module Admin.

(** [{...x, status: 'scheduled'}] *)
Definition demote (x : value) : value :=
  match x with
  | VObj o => VObj (<["status" := VStr "scheduled"]> o)
  | _ => x
  end.

(** The callback of [prev.map] in the [onDone] of [SetLiveButton]. *)
Definition reconcile_entry (updated : value) (x : value) : completion value :=
  a <- get (Some x) "_id" ;;
  b <- get (Some updated) "_id" ;;
  if strict_eq_u a b then Normal updated
  else
    s <- get (Some x) "status" ;;
    Normal (if strict_eq_u s (Some (VStr "live")) then demote x else x).

(** [x._id === y._id] for two match objects. *)
Definition same_id (x y : gmap string value) : bool :=
  strict_eq_u (x !! "_id") (y !! "_id").

(** [x.status === 'live'] *)
Definition is_live (x : gmap string value) : bool :=
  strict_eq_u (x !! "status") (Some (VStr "live")).

(** The identifiers of a list of matches are unique: no two entries have
    the same one. *)
Definition unique_ids (l : list (gmap string value)) : Prop :=
  forall (i j : nat) (x y : gmap string value),
    l !! i = Some x -> l !! j = Some y -> same_id x y = true -> i = j.

(** [setItems((prev) => prev.map(...))] *)
Definition reconcile (updated : value) (prev : list value) : completion (list value) :=
  mapM (reconcile_entry updated) prev.

End Admin.

(** ** The specification's reading of the resolver

    These definitions follow the words of the specification, not the code;
    the theorems below compare them with [Resolver.useCountdown] and with
    [DayFilter.in_bucket].  Where the specification asks for two-digit
    fields and for numeric components, [two_digit_fields] and
    [three_numeric_components] say so to the letter; [field] and [duration]
    are the reading that holds of the code, in which a field has at least
    two digits. *)

Module Spec.

(** The declared status of the data model. *)
Inductive declared : Type := scheduled | live | completed.

(** The text the match record holds for a declared status. *)
Definition status_value (d : declared) : value :=
  match d with
  | scheduled => VStr "scheduled"
  | live => VStr "live"
  | completed => VStr "completed"
  end.

Definition is_scheduled (d : declared) : bool :=
  match d with scheduled => true | _ => false end.
Definition is_live (d : declared) : bool :=
  match d with live => true | _ => false end.
Definition is_completed (d : declared) : bool :=
  match d with completed => true | _ => false end.

Definition ten_minutes : Z := 600000.
Definition one_hour : Z := 3600000.

(** The table of derived states, read top to bottom. *)
Definition derivedState (declaredStatus : declared) (startInstant now : Z) : string :=
  if is_completed declaredStatus then "completed"
  else if is_live declaredStatus || (is_scheduled declaredStatus && (startInstant <=? now))
  then "live"
  else if is_scheduled declaredStatus
          && (0 <? startInstant - now) && (startInstant - now <=? ten_minutes)
  then "soon"
  else "scheduled".

(** A field of the duration, zero-padded to at least two digits: a number
    below ten gets a leading zero, any other is its decimal numeral. *)
Definition field (n : Z) : string :=
  if n <? 10 then String "0" (Resolver.toString n) else Resolver.toString n.

(** The duration string: the remaining milliseconds floored to whole
    seconds, seconds and minutes modulo 60, hours by floor division;
    [HH:MM:SS] from one hour on, [MM:SS] below. *)
Definition duration (remainingMs : Z) : string :=
  let total_seconds := remainingMs / 1000 in
  let ss := total_seconds mod 60 in
  let mm := (total_seconds / 60) mod 60 in
  let hh := total_seconds / 3600 in
  if one_hour <=? remainingMs
  then field hh +:+ ":" +:+ field mm +:+ ":" +:+ field ss
  else field mm +:+ ":" +:+ field ss.

(** The countdown label, case by case. *)
Definition countdownLabel (declaredStatus : declared) (startInstant now : Z) : string :=
  match declaredStatus with
  | completed => "Ended"
  | live => "In Progress"
  | scheduled =>
      if startInstant <=? now then "Starting" else duration (startInstant - now)
  end.

(** The two characters of a number below 100. *)
Definition two_digits (n : Z) : string :=
  String (Resolver.digit (n / 10)) (String (Resolver.digit (n mod 10)) EmptyString).

Definition is_digit (c : ascii) : bool :=
  let n := nat_of_ascii c in ((48 <=? n) && (n <=? 57))%nat.

(** A field that is two digits. *)
Definition two_digit (f : string) : bool :=
  match f with
  | String a (String b EmptyString) => is_digit a && is_digit b
  | _ => false
  end.

(** A label of the form [HH:MM:SS] or [MM:SS], each field two digits. *)
Definition two_digit_fields (label : string) : bool :=
  match DayFilter.split ":" label with
  | [hh; mm; ss] => two_digit hh && two_digit mm && two_digit ss
  | [mm; ss] => two_digit mm && two_digit ss
  | _ => false
  end.

(** A numeric component: a text of decimal digits, at least one. *)
Definition numeric_component (s : string) : bool :=
  negb (String.eqb s "") && forallb is_digit (list_ascii_of_string s).

(** A date that splits into exactly three numeric components. *)
Definition three_numeric_components (date : string) : bool :=
  match DayFilter.split "-" date with
  | [y; m; d] => numeric_component y && numeric_component m && numeric_component d
  | _ => false
  end.

End Spec.

(** ** More of the Upcoming page *)

Module Upcoming.

Import Resolver DayFilter.

(** [stateLabel(state)] *)
Definition stateLabel (state : string) : string :=
  if String.eqb state "live" then "LIVE"
  else if String.eqb state "soon" then "SOON"
  else if String.eqb state "completed" then "COMPLETED"
  else "SCHEDULED".

(** The guard of the ReminderButton in [MatchCard]:
    [state !== "live" && state !== "completed"]. *)
Definition reminder_shown (state : string) : bool :=
  negb (String.eqb state "live") && negb (String.eqb state "completed").

(** [v.length]: the number of elements of an array, of characters of a
    text, the property of that name of an object, [undefined] otherwise. *)
Definition length_of (v : value) : option value :=
  match v with
  | VArr l => Some (VNum (inject_Z (Z.of_nat (length l))))
  | VStr s => Some (VNum (inject_Z (Z.of_nat (String.length s))))
  | VObj o => o !! "length"
  | _ => None
  end.

(** The time values of a Date lie within this many milliseconds of the
    epoch. *)
Definition max_time : Z := 8640000000000000.

(** The [startDate] memo of [MatchCard] for a date and a start time that
    are texts: [new Date(dParts[0], dParts[1] - 1, dParts[2], h, m, 0)]
    where [[h, m]] are the first two components of the start time and
    [dParts] those of the date, each read by [parseInt].  A missing
    component is [undefined], which the constructor takes as [NaN], and with
    [NaN] among its arguments the date is an Invalid Date.  [local y mo d h
    mi] is the time value that the time zone of the browser gives that day
    and time of day. *)
Definition startDate (local : Z -> Z -> Z -> Z -> Z -> Z) (date startTime : string)
    : option Z :=
  let hm := parseInt <$> split ":" startTime in
  let dParts := parseInt <$> split "-" date in
  match at_index dParts 0, Z.pred <$> at_index dParts 1, at_index dParts 2,
        at_index hm 0, at_index hm 1 with
  | Some y, Some mo, Some d, Some h, Some mi =>
      let t := local y mo d h mi in
      if Z.abs t <=? max_time then Some t else None
  | _, _, _, _, _ => None
  end.

(** [apiMatches && apiMatches.length ? apiMatches : matches], for the
    answer [apiMatches] of the API and the array [matches] of the props. *)
Definition effectiveMatches (apiMatches : value) (matches : list value) : value :=
  if truthy (Some apiMatches) && truthy (length_of apiMatches)
  then apiMatches else VArr matches.

(** The [filtered] memo of [Upcoming] from the state of the component:
    only an array has a [filter] method. *)
Definition listed (apiMatches : value) (matches : list value) (days : list date)
    (selectedDayIndex : nat) : completion (list value) :=
  match effectiveMatches apiMatches matches with
  | VArr l => filtered (Some l) days selectedDayIndex
  | _ => Throw TypeError
  end.

(** The [iso] helper of [demoMatches]: year, month from 1 and day, the last
    two padded to two digits, joined by "-". *)
Definition iso (d : date) : string :=
  toString (getFullYear d) +:+ "-"
  +:+ padStart 2 "0" (toString (getMonth d + 1)) +:+ "-"
  +:+ padStart 2 "0" (toString (getDate d)).

(** A team literal of [demoMatches]. *)
Definition team (name short color : string) : value :=
  VObj (<["name" := VStr name]> (<["short" := VStr short]> (<["color" := VStr color]> ∅))).

(** The [make] helper of [demoMatches]: a scheduled match [offsetDays] days
    after today. *)
Definition make (today : date) (offsetDays : nat) (startTime id : string)
    (t1 t2 : value) (venue : string) (streamUrl : value) : value :=
  VObj (<["id" := VStr id]>
       (<["date" := VStr (iso (day_after today offsetDays))]>
       (<["startTime" := VStr startTime]>
       (<["teams" := VArr [t1; t2]]>
       (<["venue" := VStr venue]>
       (<["streamUrl" := streamUrl]>
       (<["status" := VStr "scheduled"]> ∅))))))).

(** [demoMatches()] on the day [today]. *)
Definition demoMatches (today : date) : list value :=
  [ make today 0 "19:30" "m1"
      (team "Kathmandu Kings" "KK" "#0B4F6C") (team "Pokhara Warriors" "PW" "#D90429")
      "TU Cricket Ground" (VStr "#live");
    make today 0 "15:00" "m2"
      (team "Biratnagar Challengers" "BC" "#146C94") (team "Chitwan Rhinos" "CR" "#B20600")
      "Mulpani Stadium" VNull;
    make today 1 "14:00" "m3"
      (team "Lalitpur Patriots" "LP" "#064663") (team "Butwal Blazers" "BB" "#B31312")
      "Pokhara Stadium" VNull;
    make today 2 "13:30" "m4"
      (team "Janakpur Giants" "JG" "#0B4F6C") (team "Dhangadhi Stars" "DS" "#D90429")
      "TU Cricket Ground" (VStr "#live");
    make today 3 "16:00" "m5"
      (team "Bhaktapur Titans" "BT" "#1D5B79") (team "Dang Daredevils" "DD" "#B80000")
      "Mulpani Stadium" VNull;
    make today 4 "18:00" "m6"
      (team "Lumbini Rangers" "LR" "#0B4F6C") (team "Kaski Falcons" "KF" "#D90429")
      "Pokhara Stadium" (VStr "#live") ].

(** Calendar days in their order: by year, then month, then day. *)
Definition before (a b : date) : Prop :=
  getFullYear a < getFullYear b
  \/ getFullYear a = getFullYear b
     /\ (getMonth a < getMonth b \/ getMonth a = getMonth b /\ getDate a < getDate b).

End Upcoming.

(** ** The Live page *)

Module LivePage.

(** [list.find((m) => m.status === 'live')], then [current || null]:
    [None] is [null]. *)
Fixpoint find_live (list : list value) : completion (option value) :=
  match list with
  | [] => Normal None
  | m :: rest =>
      s <- get (Some m) "status" ;;
      if strict_eq_u s (Some (VStr "live"))
      then Normal (if truthy (Some m) then Some m else None)
      else find_live rest
  end.

End LivePage.

(** ** The admin list after save and delete *)

Module AdminList.

(** [prev.map((m) => (m._id === updated._id ? updated : m))], the list
    after an update. *)
Definition after_update (updated : value) (prev : list value) : completion (list value) :=
  mapM (fun m =>
          a <- get (Some m) "_id" ;;
          b <- get (Some updated) "_id" ;;
          Normal (if strict_eq_u a b then updated else m)) prev.

(** [[created, ...prev]], the list after a creation. *)
Definition after_create (created : value) (prev : list value) : list value :=
  created :: prev.

(** [prev.filter((m) => m._id !== id)], the list after a deletion. *)
Definition after_remove (id : option value) (prev : list value) : completion (list value) :=
  filterM (fun m =>
             a <- get (Some m) "_id" ;;
             Normal (negb (strict_eq_u a id))) prev.

(** No entry of the list has the identifier [id]. *)
Definition fresh_id (id : option value) (l : list (gmap string value)) : Prop :=
  Forall (fun x : gmap string value => strict_eq_u (x !! "_id") id = false) l.

End AdminList.

(** ** The login page *)

Module Login.

(** [location.state?.from || '/'], for a [from] that is a path or absent. *)
Definition from_state (state_from : option string) : string :=
  match state_from with
  | Some s => if String.eqb s "" then "/" else s
  | None => "/"
  end.

(** Where [submit] navigates once logged in. *)
Definition destination (user : option value) (from : string) : string :=
  if strict_eq_u (get_opt user "role") (Some (VStr "admin"))
  then (if negb (String.eqb from "") && String.prefix "/admin" from
        then from else "/admin")
  else "/live".

(** What [submit] does with the settled login request: it stores the token
    and the user of the answer and navigates, or shows an error. *)
Inductive submitted : Type :=
| LoggedIn (token user : option value) (dest : string)
| Failed (error : string).

(** [submit(e)], from what [AuthAPI.login] settled to.  Destructuring
    [{ token, user }] throws on [null]; whatever is thrown ends in the
    same message. *)
Definition submit (answer : completion value) (state_from : option string) : submitted :=
  match (r <- answer ;;
         token <- get (Some r) "token" ;;
         user <- get (Some r) "user" ;;
         Normal (token, user)) with
  | Normal (token, user) =>
      LoggedIn token user (destination user (from_state state_from))
  | Throw _ => Failed "Invalid credentials"
  end.

End Login.

(** ** The session store *)

Module Session.

(** The two keys of the session in localStorage: the token as plain text,
    the user as JSON text. *)
Record cells : Type := Cells {
  token_text : option string;
  user_text : option Storage.item
}.

(** The state of [AuthProvider]: a token that is a text or [null], a user
    that is a value or [null] ([None] for [null]). *)
Record session : Type := Session_ {
  token : option string;
  user : option value
}.

(** The initial state: [localStorage.getItem(TOKEN_KEY) || null] and
    [JSON.parse(localStorage.getItem(USER_KEY)) || null], [null] when the
    parse throws.  [JSON.parse(null)] is [null]. *)
Definition init (c : cells) : session :=
  Session_
    (match token_text c with
     | Some s => if String.eqb s "" then None else Some s
     | None => None
     end)
    (match user_text c with
     | None => None
     | Some t =>
         match Storage.JSON_parse t with
         | Normal v => if truthy (Some v) then Some v else None
         | Throw _ => None
         end
     end).

(** The two effects: each key is written when its value is truthy and
    removed otherwise. *)
Definition persist (s : session) : cells :=
  Cells
    (match token s with
     | Some t => if String.eqb t "" then None else Some t
     | None => None
     end)
    (match user s with
     | Some v => if truthy (Some v) then Some (Storage.JSON_stringify v) else None
     | None => None
     end).

(** [logout()] *)
Definition logout (s : session) : session := Session_ None None.

(** The token as the route guard reads it off the store. *)
Definition token_value (s : session) : option value := VStr <$> token s.

End Session.

(** ** What the REST client sends *)

Module Client.

(** The options a caller passes to [request]. *)
Record options : Type := Options {
  method : option string;
  body : option string;
  headers : option (gmap string string)
}.

(** What [fetch] receives beside the URL. *)
Record init : Type := Init {
  init_method : option string;
  init_body : option string;
  init_headers : gmap string string
}.

(** [getToken()]: the text under the token key, [null] when there is none,
    when it is empty and when reading throws. *)
Definition getToken (readable : bool) (token_text : option string) : option string :=
  if readable then
    match token_text with
    | Some s => if String.eqb s "" then None else Some s
    | None => None
    end
  else None.

(** The [headers] constant of [request]:
    [{ 'Content-Type': 'application/json', ...(options.headers || {}) }],
    then [Authorization] when there is a token. *)
Definition merged_headers (token : option string) (o : options) : gmap string string :=
  let h := default ∅ (headers o) ∪ {["Content-Type" := "application/json"]} in
  match token with
  | Some t => <["Authorization" := "Bearer " +:+ t]> h
  | None => h
  end.

(** The second argument of [fetch]: [{ headers, ...options }], where a
    property of [options] replaces the one written before it. *)
Definition fetch_init (token : option string) (o : options) : init :=
  Init (method o) (body o)
       (match headers o with
        | Some h => h
        | None => merged_headers token o
        end).

End Client.

(** ** Numerals *)

Module Numeral.

(** A text all of whose characters are decimal digits. *)
Definition numeric (s : string) : Prop :=
  Forall (fun c => exists d, 0 <= d <= 9 /\ c = Resolver.digit d) (list_ascii_of_string s).

End Numeral.

(** ** Entries of a stored list *)

Module Entries.

(** [e.id] for an entry off which it can be read. *)
Definition id_of (e : value) : option value := get_opt (Some e) "id".

(** [e.id === id] *)
Definition has_id (id : option value) (e : value) : bool := strict_eq_u (id_of e) id.

End Entries.

(** * Properties *)

(** ** Callbacks that do not throw *)

Section CompletionFacts.

Context {A : Type}.

Lemma filterM_spec (p : A -> completion bool) (l : list A) :
  Forall (fun x => exists b, p x = Normal b) l ->
  exists l', filterM p l = Normal l'
             /\ forall x, x ∈ l' <-> x ∈ l /\ p x = Normal true.
Proof.
  induction 1 as [|x l [b Hb] _ (l' & Hl' & IH)]; simpl.
  - exists []. split; [reflexivity|]. intros x. rewrite elem_of_nil. tauto.
  - rewrite Hb, Hl'. simpl. destruct b.
    + exists (x :: l'). split; [reflexivity|]. intros y.
      rewrite !elem_of_cons, IH. split.
      * intros [-> | [? ?]]; auto.
      * intros [[-> | ?] ?]; auto.
    + exists l'. split; [reflexivity|]. intros y.
      rewrite elem_of_cons, IH. split.
      * intros [? ?]; auto.
      * intros [[-> | ?] ?]; [congruence | auto].
Qed.


End CompletionFacts.

(** ** Decimal numerals and padding *)

Section Numerals.

Import Resolver.

Lemma digits_length_ge fuel n acc :
  (String.length acc <= String.length (digits fuel n acc))%nat.
Proof.
  revert n acc. induction fuel as [|fuel IH]; intros n acc; simpl; [lia|].
  destruct (n <? 10); simpl; [lia|].
  specialize (IH (n / 10) (String (digit (n mod 10)) acc)). simpl in IH. lia.
Qed.

Lemma toString_digit n :
  0 <= n < 10 -> toString n = String (digit n) EmptyString.
Proof.
  intros Hn. unfold toString.
  destruct (n <? 0) eqn:Hneg; [apply Z.ltb_lt in Hneg; lia|].
  simpl. rewrite Z.mod_small by lia.
  destruct (n <? 10) eqn:H10; [reflexivity | apply Z.ltb_ge in H10; lia].
Qed.

Lemma log2_fuel n : 10 <= n -> exists f, S (Z.to_nat (Z.log2 n)) = S (S f).
Proof.
  intros Hn.
  assert (3 <= Z.log2 n) by (change 3 with (Z.log2 10); apply Z.log2_le_mono; lia).
  exists (Z.to_nat (Z.log2 n) - 1)%nat. lia.
Qed.

Lemma toString_two n :
  10 <= n < 100 -> toString n = Spec.two_digits n.
Proof.
  intros Hn. unfold toString, Spec.two_digits.
  destruct (n <? 0) eqn:Hneg; [apply Z.ltb_lt in Hneg; lia|].
  destruct (log2_fuel n) as [f ->]; [lia|].
  simpl.
  destruct (n <? 10) eqn:H10; [apply Z.ltb_lt in H10; lia|].
  assert (Hq : 0 <= n / 10 < 10).
  { split; [apply Z.div_pos; lia | apply Z.div_lt_upper_bound; lia]. }
  destruct (n / 10 <? 10) eqn:Hq10; [|apply Z.ltb_ge in Hq10; lia].
  rewrite (Z.mod_small (n / 10)) by lia. reflexivity.
Qed.

Lemma toString_length_ge2 n :
  10 <= n -> (2 <= String.length (toString n))%nat.
Proof.
  intros Hn. unfold toString.
  destruct (n <? 0) eqn:Hneg; [apply Z.ltb_lt in Hneg; lia|].
  destruct (log2_fuel n) as [f ->]; [lia|].
  simpl.
  destruct (n <? 10) eqn:H10; [apply Z.ltb_lt in H10; lia|].
  destruct (n / 10 <? 10).
  - simpl. lia.
  - pose proof (digits_length_ge f (n / 10 / 10)
      (String (digit ((n / 10) mod 10)) (String (digit (n mod 10)) EmptyString))) as H.
    simpl in H. lia.
Qed.

Lemma toString_length_ge3 n :
  100 <= n -> (3 <= String.length (toString n))%nat.
Proof.
  intros Hn. unfold toString.
  destruct (n <? 0) eqn:Hneg; [apply Z.ltb_lt in Hneg; lia|].
  assert (Hf : exists f, S (Z.to_nat (Z.log2 n)) = S (S (S f))).
  { assert (6 <= Z.log2 n) by (change 6 with (Z.log2 100); apply Z.log2_le_mono; lia).
    exists (Z.to_nat (Z.log2 n) - 2)%nat. lia. }
  destruct Hf as [f ->].
  cbn [digits].
  destruct (n <? 10) eqn:H10; [apply Z.ltb_lt in H10; lia|].
  destruct (n / 10 <? 10) eqn:H100.
  { apply Z.ltb_lt in H100.
    assert (10 <= n / 10) by (apply Z.div_le_lower_bound; lia). lia. }
  destruct (n / 10 / 10 <? 10).
  - cbn [String.length]. lia.
  - pose proof (digits_length_ge f (n / 10 / 10 / 10)
      (String (digit ((n / 10 / 10) mod 10))
         (String (digit ((n / 10) mod 10)) (String (digit (n mod 10)) EmptyString)))) as H.
    cbn [String.length] in H. lia.
Qed.

Lemma padStart_long target fill s :
  (target <= String.length s)%nat -> padStart target fill s = s.
Proof.
  intros H. unfold padStart.
  replace (target - String.length s)%nat with 0%nat by lia. reflexivity.
Qed.

(** [pad] prepends one zero to a single digit and leaves longer numerals
    alone: it is the specification's zero-padding to two digits. *)
Lemma pad_field n : 0 <= n -> pad (Some n) = Spec.field n.
Proof.
  intros Hn. unfold pad, Spec.field. cbn [toString_number].
  destruct (n <? 10) eqn:H10.
  - apply Z.ltb_lt in H10. rewrite toString_digit by lia. reflexivity.
  - apply Z.ltb_ge in H10. apply padStart_long, toString_length_ge2. lia.
Qed.

Lemma field_two_digits n : 0 <= n < 100 -> Spec.field n = Spec.two_digits n.
Proof.
  intros Hn. unfold Spec.field.
  destruct (n <? 10) eqn:H10.
  - apply Z.ltb_lt in H10. rewrite toString_digit by lia.
    unfold Spec.two_digits. rewrite Z.div_small, Z.mod_small by lia. reflexivity.
  - apply Z.ltb_ge in H10. apply toString_two. lia.
Qed.

(** [toString] writes the numeral [parseInt] reads: the fuel of [digits]
    is enough for every digit. *)

Lemma digit_cases d :
  0 <= d <= 9 ->
  d = 0 \/ d = 1 \/ d = 2 \/ d = 3 \/ d = 4 \/ d = 5 \/ d = 6 \/ d = 7 \/ d = 8 \/ d = 9.
Proof. lia. Qed.

Lemma digit_val_digit d : 0 <= d <= 9 -> DayFilter.digit_val (digit d) = Some d.
Proof.
  intros H. destruct (digit_cases d H) as [-> | [-> | [-> | [-> | [-> | [-> | [-> | [-> | [-> | ->]]]]]]]]];
    reflexivity.
Qed.

Lemma read_digits_digit d rest acc :
  0 <= d <= 9 ->
  DayFilter.read_digits (String (digit d) rest) acc
  = DayFilter.read_digits rest (Some (10 * default 0 acc + d)).
Proof.
  intros Hd. cbn [DayFilter.read_digits]. rewrite digit_val_digit by exact Hd.
  reflexivity.
Qed.

Lemma digits_step fuel n acc :
  digits (S fuel) n acc =
  if n <? 10 then String (digit (n mod 10)) acc
  else digits fuel (n / 10) (String (digit (n mod 10)) acc).
Proof. reflexivity. Qed.

Lemma read_digits_digits fuel :
  forall n acc,
    0 <= n < 10 ^ Z.of_nat (S fuel) ->
    DayFilter.read_digits (digits (S fuel) n acc) None
    = DayFilter.read_digits acc (Some n).
Proof.
  induction fuel as [|fuel IH]; intros n acc Hn.
  - change (10 ^ Z.of_nat 1) with 10 in Hn. rewrite digits_step.
    destruct (n <? 10) eqn:E; [|apply Z.ltb_ge in E; lia].
    rewrite Z.mod_small by lia. rewrite read_digits_digit by lia.
    cbn [default from_option id]. replace (10 * 0 + n) with n by lia. reflexivity.
  - rewrite digits_step.
    destruct (n <? 10) eqn:E.
    + apply Z.ltb_lt in E.
      rewrite Z.mod_small by lia. rewrite read_digits_digit by lia.
      cbn [default from_option id]. replace (10 * 0 + n) with n by lia. reflexivity.
    + apply Z.ltb_ge in E.
      rewrite IH.
      * pose proof (Z.mod_pos_bound n 10 ltac:(lia)).
        rewrite read_digits_digit by lia. cbn [default from_option id].
        replace (10 * (n / 10) + n mod 10) with n
          by (pose proof (Z.div_mod n 10 ltac:(lia)); lia).
        reflexivity.
      * split; [apply Z.div_pos; lia|].
        apply Z.div_lt_upper_bound; [lia|].
        replace (Z.of_nat (S (S fuel))) with (Z.succ (Z.of_nat (S fuel))) in Hn by lia.
        rewrite Z.pow_succ_r in Hn by lia. lia.
Qed.

Lemma fuel_enough n : 0 <= n -> n < 10 ^ Z.of_nat (S (Z.to_nat (Z.log2 n))).
Proof.
  intros Hn. destruct (Z.eq_dec n 0) as [-> | Hne]; [reflexivity|].
  pose proof (Z.log2_nonneg n) as Hl.
  pose proof (Z.log2_spec n ltac:(lia)) as [_ Hup].
  replace (Z.of_nat (S (Z.to_nat (Z.log2 n)))) with (Z.succ (Z.log2 n)) by lia.
  eapply Z.lt_le_trans; [exact Hup|].
  apply Z.pow_le_mono_l. lia.
Qed.

Lemma digits_head fuel n acc :
  0 <= n ->
  exists d rest, 0 <= d <= 9 /\ digits (S fuel) n acc = String (digit d) rest.
Proof.
  revert n acc. induction fuel as [|fuel IH]; intros n acc Hn.
  - rewrite digits_step. pose proof (Z.mod_pos_bound n 10 ltac:(lia)).
    destruct (n <? 10); exists (n mod 10); eexists; (split; [lia | reflexivity]).
  - rewrite digits_step. destruct (n <? 10).
    + pose proof (Z.mod_pos_bound n 10 ltac:(lia)).
      eexists _, _. split; [|reflexivity]. lia.
    + apply IH. apply Z.div_pos; lia.
Qed.

Lemma toString_parseInt n : 0 <= n -> DayFilter.parseInt (toString n) = Some n.
Proof.
  intros Hn. unfold toString.
  destruct (n <? 0) eqn:E; [apply Z.ltb_lt in E; lia|].
  pose proof (read_digits_digits (Z.to_nat (Z.log2 n)) n EmptyString
                (conj Hn (fuel_enough n Hn))) as Hread.
  destruct (digits_head (Z.to_nat (Z.log2 n)) n EmptyString Hn) as (d & rest & Hd & Heq).
  rewrite Heq in *. unfold DayFilter.parseInt.
  destruct (digit_cases d Hd) as [-> | [-> | [-> | [-> | [-> | [-> | [-> | [-> | [-> | ->]]]]]]]]];
    exact Hread.
Qed.

End Numerals.

(** ** The resolver *)

Section ResolverFacts.

Import Resolver.

Lemma strict_eq_str v t : strict_eq v (VStr t) = true <-> v = VStr t.
Proof.
  destruct v; simpl; try (split; [discriminate | congruence]).
  rewrite String.eqb_eq. split; [intros ->; reflexivity | congruence].
Qed.

Lemma strict_eq_str_false v t : v <> VStr t -> strict_eq v (VStr t) = false.
Proof.
  intros Hne. destruct (strict_eq v (VStr t)) eqn:E; [|reflexivity].
  apply strict_eq_str in E. contradiction.
Qed.

(** Past the two declared cases the resolver looks at the clock only. *)
Lemma useCountdown_by_time status startDate now :
  status <> VStr "completed" -> status <> VStr "live" ->
  useCountdown (Some startDate) status now =
  if startDate - now <=? 0 then Countdown (Some (startDate - now)) "Starting" "live"
  else Countdown (Some (startDate - now))
         (Spec.duration (startDate - now))
         (if startDate - now <=? Spec.ten_minutes then "soon" else "scheduled").
Proof.
  intros Hc Hl. unfold useCountdown.
  rewrite (strict_eq_str_false _ _ Hc), (strict_eq_str_false _ _ Hl).
  cbn [Num.sub Num.max Num.leb Num.gtb Num.floor_div Num.rem fmap option_fmap option_map].
  destruct (startDate - now <=? 0) eqn:Hpast; [reflexivity|].
  apply Z.leb_gt in Hpast.
  set (diff := startDate - now) in *.
  rewrite Z.max_l by lia.
  assert (Hsec : 0 <= diff / 1000) by (apply Z.div_pos; lia).
  rewrite !Z.rem_mod_nonneg by (first [lia | apply Z.div_pos; lia]).
  assert (Hmin : diff / (60 * 1000) = diff / 1000 / 60)
    by (rewrite Z.div_div by lia; reflexivity).
  assert (Hhr : diff / (60 * 60 * 1000) = diff / 1000 / 3600)
    by (rewrite Z.div_div by lia; reflexivity).
  rewrite Hmin, Hhr.
  assert (Hh : 0 <= diff / 1000 / 3600) by (apply Z.div_pos; lia).
  assert (Hcase : (0 <? diff / 1000 / 3600) = (Spec.one_hour <=? diff)).
  { rewrite <- Hhr. unfold Spec.one_hour.
    destruct (3600000 <=? diff) eqn:E.
    - apply Z.leb_le in E. apply Z.ltb_lt.
      apply Z.div_str_pos. lia.
    - apply Z.leb_gt in E. apply Z.ltb_ge.
      rewrite Z.div_small by lia. lia. }
  unfold Spec.duration. rewrite Hcase.
  rewrite !pad_field by
    (first [exact Hh | apply Z.mod_pos_bound; lia]).
  f_equal.
Qed.

Lemma status_value_not_completed d :
  Spec.is_completed d = false -> Spec.status_value d <> VStr "completed".
Proof. destruct d; simpl; congruence. Qed.

Lemma useCountdown_completed startDate now :
  useCountdown startDate (VStr "completed") now
  = Countdown (Num.sub startDate (Some now)) "Ended" "completed".
Proof. reflexivity. Qed.

Lemma useCountdown_live startDate now :
  useCountdown startDate (VStr "live") now
  = Countdown (Num.sub startDate (Some now)) "In Progress" "live".
Proof. reflexivity. Qed.

(** Past the two declared cases an Invalid Date makes every comparison
    false and every number of the label [NaN]. *)
Lemma useCountdown_invalid status now :
  status <> VStr "completed" -> status <> VStr "live" ->
  useCountdown None status now = Countdown None "NaN:NaN" "scheduled".
Proof.
  intros Hc Hl. unfold useCountdown.
  rewrite (strict_eq_str_false _ _ Hc), (strict_eq_str_false _ _ Hl). reflexivity.
Qed.

Lemma useCountdown_scheduled startDate now :
  useCountdown (Some startDate) (VStr "scheduled") now =
  if startDate - now <=? 0 then Countdown (Some (startDate - now)) "Starting" "live"
  else Countdown (Some (startDate - now))
         (Spec.duration (startDate - now))
         (if startDate - now <=? Spec.ten_minutes then "soon" else "scheduled").
Proof. apply useCountdown_by_time; discriminate. Qed.

Lemma useCountdown_cases status (startDate : option Z) now :
  status = VStr "completed"
  /\ useCountdown startDate status now
     = Countdown (Num.sub startDate (Some now)) "Ended" "completed"
  \/ status = VStr "live"
     /\ useCountdown startDate status now
        = Countdown (Num.sub startDate (Some now)) "In Progress" "live"
  \/ status <> VStr "completed" /\ status <> VStr "live"
     /\ useCountdown startDate status now
        = match startDate with
          | Some s =>
              if s - now <=? 0 then Countdown (Some (s - now)) "Starting" "live"
              else Countdown (Some (s - now))
                     (Spec.duration (s - now))
                     (if s - now <=? Spec.ten_minutes then "soon" else "scheduled")
          | None => Countdown None "NaN:NaN" "scheduled"
          end.
Proof.
  destruct (strict_eq status (VStr "completed")) eqn:Hc.
  - apply strict_eq_str in Hc. subst. left. split; reflexivity.
  - destruct (strict_eq status (VStr "live")) eqn:Hl.
    + apply strict_eq_str in Hl. subst. right. left. split; reflexivity.
    + right. right.
      assert (H1 : status <> VStr "completed")
        by (intros E; apply strict_eq_str in E; congruence).
      assert (H2 : status <> VStr "live")
        by (intros E; apply strict_eq_str in E; congruence).
      split; [exact H1|]. split; [exact H2|].
      destruct startDate as [s|];
        [apply useCountdown_by_time | apply useCountdown_invalid]; assumption.
Qed.

Lemma card_status_absent (m : gmap string value) :
  card_status (delete "status" m) = VStr "scheduled".
Proof. unfold card_status. rewrite lookup_delete_eq. reflexivity. Qed.

(** C1: for a match whose declared status is one of the data model's
    (scheduled, live, completed, or absent, which the card reads as
    scheduled) and for every pair of instants, the derived state of the
    resolver is the one of the specification's table read top to bottom:
    completed if declared completed; else live if declared live, or declared
    scheduled with the start instant reached; else soon if declared
    scheduled with at most ten minutes to go; else scheduled.  Declared
    completed and live give their state whatever the dates are, and a
    derived live state arises only from a declared live status or from a
    declared scheduled one whose start instant has passed.  A start that is
    an Invalid Date passes none of the table's comparisons: the state is
    then the declared one. *)
Theorem C1_derived_state :
  (forall (d : Spec.declared) (startInstant now : Z),
      state (useCountdown (Some startInstant) (Spec.status_value d) now)
      = Spec.derivedState d startInstant now)
  /\ (forall (m : gmap string value) (startInstant now : Z),
         state (card_countdown (delete "status" m) (Some startInstant) now)
         = Spec.derivedState Spec.scheduled startInstant now)
  /\ (forall (startDate : option Z) (now : Z),
         state (useCountdown startDate (VStr "completed") now) = "completed"
         /\ state (useCountdown startDate (VStr "live") now) = "live")
  /\ (forall (d : Spec.declared) (startInstant now : Z),
         String.eqb (state (useCountdown (Some startInstant) (Spec.status_value d) now)) "live"
         = Spec.is_live d || (Spec.is_scheduled d && (startInstant <=? now)))
  /\ (forall (d : Spec.declared) (now : Z),
         state (useCountdown None (Spec.status_value d) now)
         = match d with
           | Spec.completed => "completed"
           | Spec.live => "live"
           | Spec.scheduled => "scheduled"
           end).
Proof.
  assert (Hsched : forall s n,
             state (useCountdown (Some s) (VStr "scheduled") n)
             = Spec.derivedState Spec.scheduled s n).
  { intros s n. rewrite useCountdown_scheduled. unfold Spec.derivedState. simpl.
    destruct (s - n <=? 0) eqn:E1, (s <=? n) eqn:E2; simpl;
      try reflexivity;
      try (apply Z.leb_le in E1; apply Z.leb_gt in E2; lia);
      try (apply Z.leb_gt in E1; apply Z.leb_le in E2; lia).
    apply Z.leb_gt in E1.
    destruct (0 <? s - n) eqn:E3; [|apply Z.ltb_ge in E3; lia].
    simpl. reflexivity. }
  split; [|split; [|split; [|split]]].
  - intros [] s n; [apply Hsched | reflexivity | reflexivity].
  - intros m s n. unfold card_countdown. rewrite card_status_absent. apply Hsched.
  - intros s n. split; reflexivity.
  - intros [] s n; simpl; [|reflexivity|reflexivity].
    rewrite Hsched. unfold Spec.derivedState. simpl.
    destruct (s <=? n); [reflexivity|].
    destruct ((0 <? s - n) && (s - n <=? Spec.ten_minutes)); reflexivity.
  - intros [] n; reflexivity.
Qed.

Lemma digit_is_digit d :
  0 <= d <= 9 -> Ascii.eqb (digit d) ":" = false /\ Spec.is_digit (digit d) = true.
Proof.
  intros H.
  destruct (digit_cases d H) as [-> | [-> | [-> | [-> | [-> | [-> | [-> | [-> | [-> | ->]]]]]]]]];
    split; vm_compute; reflexivity.
Qed.

(** The text of a field below one hundred splits off a label like the
    text of any two digits. *)
Lemma split_two_digits (n : Z) (rest : string) :
  0 <= n < 100 ->
  DayFilter.split ":" (Spec.two_digits n +:+ rest)
  = match DayFilter.split ":" rest with
    | h :: t => (Spec.two_digits n +:+ h) :: t
    | [] => [Spec.two_digits n]
    end
  /\ Spec.two_digit (Spec.two_digits n) = true.
Proof.
  intros Hn. unfold Spec.two_digits.
  assert (Ha : 0 <= n / 10 <= 9).
  { assert (n / 10 < 10) by (apply Z.div_lt_upper_bound; lia).
    split; [apply Z.div_pos; lia | lia]. }
  assert (Hb : 0 <= n mod 10 <= 9) by (pose proof (Z.mod_pos_bound n 10); lia).
  destruct (digit_is_digit _ Ha) as [Ca Da], (digit_is_digit _ Hb) as [Cb Db].
  split.
  - change (String ?a (String ?b "") +:+ ?r) with (String a (String b r)).
    cbn [DayFilter.split]. rewrite Ca, Cb.
    destruct (DayFilter.split ":" rest); reflexivity.
  - cbn [Spec.two_digit]. rewrite Da, Db. reflexivity.
Qed.

(** Below one hundred hours the duration is two or three fields of two
    digits. *)
Lemma duration_two_digit_fields (remainingMs : Z) :
  0 <= remainingMs < 100 * Spec.one_hour ->
  Spec.two_digit_fields (Spec.duration remainingMs) = true.
Proof.
  intros Hr. unfold Spec.one_hour in Hr.
  assert (Hss : 0 <= remainingMs / 1000 mod 60 < 100)
    by (pose proof (Z.mod_pos_bound (remainingMs / 1000) 60); lia).
  assert (Hmm : 0 <= remainingMs / 1000 / 60 mod 60 < 100)
    by (pose proof (Z.mod_pos_bound (remainingMs / 1000 / 60) 60); lia).
  assert (Hhh : 0 <= remainingMs / 1000 / 3600 < 100).
  { rewrite Z.div_div by lia. split.
    - apply Z.div_pos; lia.
    - apply Z.div_lt_upper_bound; lia. }
  unfold Spec.duration, Spec.two_digit_fields.
  rewrite !field_two_digits by assumption.
  pose proof (split_two_digits _ "" Hss) as [Es Ts].
  pose proof (split_two_digits _ "" Hmm) as [_ Tm].
  pose proof (split_two_digits _ "" Hhh) as [_ Th].
  assert (E0 : forall n, Spec.two_digits n +:+ "" = Spec.two_digits n) by reflexivity.
  rewrite E0 in Es. cbn [DayFilter.split] in Es. rewrite E0 in Es.
  assert (Em : DayFilter.split ":"
                 (Spec.two_digits (remainingMs / 1000 / 60 mod 60) +:+ ":"
                  +:+ Spec.two_digits (remainingMs / 1000 mod 60))
               = [Spec.two_digits (remainingMs / 1000 / 60 mod 60);
                  Spec.two_digits (remainingMs / 1000 mod 60)]).
  { rewrite (proj1 (split_two_digits _ _ Hmm)).
    change (":" +:+ ?x) with (String ":" x). cbn [DayFilter.split Ascii.eqb Bool.eqb].
    rewrite Es, E0. reflexivity. }
  destruct (Spec.one_hour <=? remainingMs).
  - rewrite (proj1 (split_two_digits _ _ Hhh)).
    change (":" +:+ ?x) with (String ":" x). cbn [DayFilter.split Ascii.eqb Bool.eqb].
    rewrite Em, E0, Th, Tm, Ts. reflexivity.
  - rewrite Em, Tm, Ts. reflexivity.
Qed.

(** C2, as amended: for a match whose declared status is one of the data
    model's, the countdown label is "Ended" when declared completed and
    "In Progress" when declared live, whatever the dates are; for a start
    date that is valid it is "Starting" when declared scheduled with the
    start instant reached, and otherwise the remaining time floored to whole
    seconds, seconds and minutes modulo 60, hours by floor division,
    HH:MM:SS from one hour on and MM:SS below, every field zero-padded to at
    least two digits: the seconds and minutes fields are always two digits,
    the hours field is two digits below one hundred hours, where the whole
    label is fields of two digits, and keeps all its digits from there on.
    3661000 ms read "01:01:01" and nine minutes read "09:00". *)
Theorem C2_countdown_label :
  (forall (d : Spec.declared) (startInstant now : Z),
      countdownLabel (useCountdown (Some startInstant) (Spec.status_value d) now)
      = Spec.countdownLabel d startInstant now)
  /\ (forall (startDate : option Z) (now : Z),
         countdownLabel (useCountdown startDate (VStr "completed") now) = "Ended"
         /\ countdownLabel (useCountdown startDate (VStr "live") now) = "In Progress")
  /\ (forall remainingMs : Z,
         Spec.field (remainingMs / 1000 mod 60) = Spec.two_digits (remainingMs / 1000 mod 60)
         /\ Spec.field (remainingMs / 1000 / 60 mod 60)
            = Spec.two_digits (remainingMs / 1000 / 60 mod 60))
  /\ (forall remainingMs : Z,
         0 <= remainingMs < 100 * Spec.one_hour ->
         Spec.field (remainingMs / 1000 / 3600) = Spec.two_digits (remainingMs / 1000 / 3600))
  /\ (forall startInstant now : Z,
         0 < startInstant - now < 100 * Spec.one_hour ->
         Spec.two_digit_fields
           (countdownLabel (useCountdown (Some startInstant) (VStr "scheduled") now)) = true)
  /\ (forall remainingMs : Z,
         100 * Spec.one_hour <= remainingMs ->
         Spec.field (remainingMs / 1000 / 3600) = toString (remainingMs / 1000 / 3600)
         /\ (3 <= String.length (Spec.field (remainingMs / 1000 / 3600)))%nat)
  /\ (forall now : Z,
         countdownLabel (useCountdown (Some (now + 3661000)) (VStr "scheduled") now)
         = "01:01:01")
  /\ (forall now : Z,
         countdownLabel (useCountdown (Some (now + 9 * 60 * 1000)) (VStr "scheduled") now)
         = "09:00").
Proof.
  split; [|split; [|split; [|split; [|split; [|split; [|split]]]]]].
  - intros [] s n; simpl; [|reflexivity|reflexivity].
    rewrite useCountdown_scheduled.
    destruct (s - n <=? 0) eqn:E1, (s <=? n) eqn:E2; simpl;
      try reflexivity;
      try (apply Z.leb_le in E1; apply Z.leb_gt in E2; lia);
      try (apply Z.leb_gt in E1; apply Z.leb_le in E2; lia).
  - intros s n. split; reflexivity.
  - intros r. split; apply field_two_digits.
    + pose proof (Z.mod_pos_bound (r / 1000) 60). lia.
    + pose proof (Z.mod_pos_bound (r / 1000 / 60) 60). lia.
  - intros r Hr. apply field_two_digits. unfold Spec.one_hour in Hr.
    rewrite Z.div_div by lia. split.
    + apply Z.div_pos; lia.
    + apply Z.div_lt_upper_bound; lia.
  - intros s n Hr. rewrite useCountdown_scheduled.
    destruct (s - n <=? 0) eqn:E; [apply Z.leb_le in E; lia|].
    cbn [countdownLabel]. apply duration_two_digit_fields. lia.
  - intros r Hr. unfold Spec.one_hour in Hr.
    assert (Hh : 100 <= r / 1000 / 3600).
    { rewrite Z.div_div by lia. apply Z.div_le_lower_bound; lia. }
    unfold Spec.field.
    destruct (r / 1000 / 3600 <? 10) eqn:E; [apply Z.ltb_lt in E; lia|].
    split; [reflexivity|]. apply toString_length_ge3. exact Hh.
  - intros n. replace (n + 3661000) with (3661000 + n) by lia.
    rewrite useCountdown_scheduled.
    replace (3661000 + n - n) with 3661000 by lia. reflexivity.
  - intros n. rewrite useCountdown_scheduled.
    replace (n + 9 * 60 * 1000 - n) with 540000 by lia. reflexivity.
Qed.

(** The hours field at two hours and a half. *)
Lemma C2_countdown_label_witness :
  Spec.field (9000000 / 1000 / 3600) = Spec.two_digits (9000000 / 1000 / 3600).
Proof.
  apply (proj1 (proj2 (proj2 (proj2 C2_countdown_label))) 9000000).
  unfold Spec.one_hour. lia.
Defined.

(** C2, as the specification states it, fails at two kinds of input.  A
    scheduled match one hundred hours ahead has the label "100:00:00",
    whose hours field is three digits.  A scheduled match whose start time
    is "1930", with no colon, has an Invalid Date for its start, and the
    label "NaN:NaN", which is no duration. *)
Lemma C2_countdown_label_counterexample :
  countdownLabel (useCountdown (Some 360000000) (VStr "scheduled") 0) = "100:00:00"
  /\ Spec.two_digit_fields
       (countdownLabel (useCountdown (Some 360000000) (VStr "scheduled") 0)) = false
  /\ (forall local, Upcoming.startDate local "2025-11-20" "1930" = None)
  /\ countdownLabel (useCountdown None (VStr "scheduled") 0) = "NaN:NaN"
  /\ Spec.two_digit_fields (countdownLabel (useCountdown None (VStr "scheduled") 0)) = false.
Proof.
  split; [vm_compute; reflexivity|].
  split; [vm_compute; reflexivity|].
  split; [intros local; reflexivity|].
  split; reflexivity.
Qed.

(** C10: whatever the status property of a match object is, as long as it
    is neither "completed" nor "live" (absent, which the card reads as
    "scheduled", or "soon" as the admin editor offers it, or any other
    value), the resolver answers exactly as for a declared "scheduled"
    match, whatever the start date is, and for a valid one state and label
    are functions of the time left alone. *)
Theorem C10_other_status_by_time (m : gmap string value) (startDate now : Z) :
  m !! "status" <> Some (VStr "completed") ->
  m !! "status" <> Some (VStr "live") ->
  (forall start : option Z,
      card_countdown m start now = useCountdown start (VStr "scheduled") now)
  /\ state (card_countdown m (Some startDate) now)
     = (if startDate - now <=? 0 then "live"
        else if startDate - now <=? Spec.ten_minutes then "soon" else "scheduled")
  /\ countdownLabel (card_countdown m (Some startDate) now)
     = (if startDate - now <=? 0 then "Starting" else Spec.duration (startDate - now)).
Proof.
  intros Hc Hl.
  assert (Hc' : card_status m <> VStr "completed").
  { unfold card_status. destruct (m !! "status"); congruence. }
  assert (Hl' : card_status m <> VStr "live").
  { unfold card_status. destruct (m !! "status"); congruence. }
  unfold card_countdown.
  split.
  - intros [s|].
    + rewrite (useCountdown_by_time _ _ _ Hc' Hl'), useCountdown_scheduled. reflexivity.
    + rewrite (useCountdown_invalid _ _ Hc' Hl'). reflexivity.
  - rewrite (useCountdown_by_time _ _ _ Hc' Hl').
    destruct (startDate - now <=? 0); split; reflexivity.
Qed.

(** A match object without status and one the admin editor saved as
    "soon", both five seconds past their start. *)
Lemma C10_other_status_by_time_witness :
  state (card_countdown ∅ (Some 0) 5000) = "live"
  /\ state (card_countdown {["status" := VStr "soon"]} (Some 0) 5000) = "live".
Proof.
  split.
  - pose proof (C10_other_status_by_time ∅ 0 5000) as H.
    destruct H as (_ & H & _).
    + rewrite lookup_empty. discriminate.
    + rewrite lookup_empty. discriminate.
    + exact H.
  - pose proof (C10_other_status_by_time {["status" := VStr "soon"]} 0 5000) as H.
    destruct H as (_ & H & _).
    + rewrite lookup_singleton_eq. discriminate.
    + rewrite lookup_singleton_eq. discriminate.
    + exact H.
Defined.

End ResolverFacts.

(** ** The progress bar *)

Section ProgressFacts.

Import Resolver.

Local Open Scope Q_scope.

Lemma clamp_bounds pct : 3 <= clamp pct /\ clamp pct <= 100.
Proof.
  unfold clamp. split.
  - apply Q.min_glb; [apply Q.le_max_r | discriminate].
  - apply Q.le_min_r.
Qed.

Lemma clamp_low pct : pct <= 3 -> clamp pct == 3.
Proof.
  intros H. unfold clamp. rewrite (Q.max_r pct 3) by exact H.
  apply Q.min_l. discriminate.
Qed.

Lemma clamp_high pct : 100 <= pct -> clamp pct == 100.
Proof.
  intros H. unfold clamp.
  assert (3 <= pct) by (eapply Qle_trans; [|exact H]; discriminate).
  rewrite (Q.max_l pct 3) by assumption.
  apply Q.min_r. exact H.
Qed.

Lemma clamp_mid pct : 3 <= pct <= 100 -> clamp pct == pct.
Proof.
  intros [H1 H2]. unfold clamp.
  rewrite (Q.max_l pct 3) by assumption.
  apply Q.min_l. exact H2.
Qed.

Lemma pct_forced total remaining st :
  String.eqb st "live" || String.eqb st "completed" = true ->
  ProgressBar_pct total remaining st = Some 100.
Proof. intros H. unfold ProgressBar_pct. rewrite H. reflexivity. Qed.

(** On a remaining time that is a number the bar is the clamped
    percentage. *)
Lemma ProgressBar_number total (remaining : Q) st :
  exists pct,
    ProgressBar_pct total (Some remaining) st = Some pct
    /\ ProgressBar total (Some remaining) st = Some (clamp pct).
Proof.
  unfold ProgressBar, ProgressBar_pct.
  destruct (String.eqb st "live" || String.eqb st "completed");
    eexists; split; reflexivity.
Qed.

Lemma pct_waiting (r : option Q) (st : string) :
  st = "soon" \/ st = "scheduled" ->
  ProgressBar_pct (inject_Z windowMs) r st
  = (fun r => 100 - r / inject_Z windowMs * 100) <$> r.
Proof. intros [-> | ->]; reflexivity. Qed.

Lemma waiting_state (d : Z) :
  (if (d <=? Spec.ten_minutes)%Z then "soon" else "scheduled") = "soon"
  \/ (if (d <=? Spec.ten_minutes)%Z then "soon" else "scheduled") = "scheduled".
Proof. destruct (d <=? Spec.ten_minutes)%Z; auto. Qed.

Lemma card_progress_waiting (d : Z) (label st : string) :
  st = "soon" \/ st = "scheduled" ->
  card_progress (Countdown (Some d) label st)
  = Some (Some (clamp (100 - Qmin (inject_Z d) (inject_Z windowMs) / inject_Z windowMs * 100))).
Proof.
  intros Hst. unfold card_progress, ProgressBar. cbn [state diffMs].
  rewrite (pct_waiting _ _ Hst). destruct Hst as [-> | ->]; reflexivity.
Qed.

Lemma card_progress_live (d : option Z) (label : string) :
  card_progress (Countdown d label "live") = Some (Some (clamp 100)).
Proof. reflexivity. Qed.

(** C4, as amended: over the fixed window of two hours, for every derived
    state and every remaining time that is a number, the rendered
    percentage lies between 3 and 100; a computed percentage of at most 3
    renders as 3, one of at least 100 as 100, one in between as itself; the
    states live and completed force 100, whatever the remaining time is; in
    any other state the computed percentage is the elapsed fraction of the
    window, 100 * (window - remaining) / window.  On the card: a match
    declared completed has no bar; a match declared live, or one not
    declared completed whose valid start instant is reached, has a bar of
    100; a match declared neither, before its valid start instant, has a
    bar of the elapsed share of the two-hour window that ends at the start
    instant, no less than 3; and three hours to go render as exactly 3. *)
Theorem C4_progress_bar :
  let W := inject_Z windowMs in
  W == 2 * inject_Z Spec.one_hour
  /\ (forall (remainingMs : Q) (st : string),
         exists w, ProgressBar W (Some remainingMs) st = Some w /\ 3 <= w /\ w <= 100)
  /\ (forall (remainingMs : Q) (st : string),
         exists pct w,
           ProgressBar_pct W (Some remainingMs) st = Some pct
           /\ ProgressBar W (Some remainingMs) st = Some w
           /\ (pct <= 3 -> w == 3)
           /\ (100 <= pct -> w == 100)
           /\ (3 <= pct <= 100 -> w == pct))
  /\ (forall remainingMs : option Q,
         exists w w',
           ProgressBar W remainingMs "live" = Some w /\ w == 100
           /\ ProgressBar W remainingMs "completed" = Some w' /\ w' == 100)
  /\ (forall (remainingMs : Q) (st : string),
         st <> "live" -> st <> "completed" ->
         exists pct,
           ProgressBar_pct W (Some remainingMs) st = Some pct
           /\ pct == 100 * ((W - remainingMs) / W))
  /\ (forall (c : countdown) (w : Q),
         card_progress c = Some (Some w) -> 3 <= w /\ w <= 100)
  /\ (forall (startDate : option Z) (now : Z),
         card_progress (useCountdown startDate (VStr "completed") now) = None)
  /\ (forall (status : value) (startDate : option Z) (now : Z),
         status = VStr "live"
         \/ (status <> VStr "completed" /\ exists s, startDate = Some s /\ (s <= now)%Z) ->
         exists w,
           card_progress (useCountdown startDate status now) = Some (Some w) /\ w == 100)
  /\ (forall (status : value) (startInstant now : Z),
         status <> VStr "completed" -> status <> VStr "live" -> (now < startInstant)%Z ->
         exists w,
           card_progress (useCountdown (Some startInstant) status now) = Some (Some w)
           /\ w == Qmax 3 (100 * ((W - Qmin (inject_Z (startInstant - now)) W) / W))
           /\ 3 <= w /\ w <= 100)
  /\ (forall now : Z,
         card_progress (useCountdown (Some (now + 3 * 60 * 60 * 1000)%Z) (VStr "scheduled") now)
         = Some (Some 3)).
Proof.
  intros W. split; [|split; [|split; [|split; [|split; [|split; [|split; [|split; [|split]]]]]]]].
  - reflexivity.
  - intros r st. destruct (ProgressBar_number W r st) as (pct & _ & ->).
    eexists. split; [reflexivity|]. apply clamp_bounds.
  - intros r st. destruct (ProgressBar_number W r st) as (pct & -> & ->).
    eexists _, _. split; [reflexivity|]. split; [reflexivity|].
    split; [apply clamp_low | split; [apply clamp_high | apply clamp_mid]].
  - intros r. unfold ProgressBar.
    rewrite !pct_forced by reflexivity.
    eexists _, _. split; [reflexivity|]. split; [reflexivity|].
    split; [reflexivity|]. reflexivity.
  - intros r st Hl Hc. unfold ProgressBar_pct.
    apply String.eqb_neq in Hl, Hc. rewrite Hl, Hc.
    eexists. split; [reflexivity|].
    unfold W, windowMs. field. discriminate.
  - intros c w H. unfold card_progress in H.
    destruct (String.eqb (state c) "completed"); [discriminate|].
    injection H as H. unfold ProgressBar in H.
    destruct (ProgressBar_pct _ _ _); [|discriminate].
    injection H as <-. apply clamp_bounds.
  - intros s n. reflexivity.
  - intros status s n [-> | (Hc & s' & -> & Hle)].
    + exists (clamp 100). split; reflexivity.
    + exists (clamp 100).
      destruct (useCountdown_cases status (Some s') n) as [[Hs _] | [[_ ->] | (_ & _ & ->)]];
        [contradiction | split; reflexivity |].
      destruct (s' - n <=? 0)%Z eqn:E; [split; reflexivity|].
      apply Z.leb_gt in E. lia.
  - intros status s n Hc Hl Hlt.
    rewrite (useCountdown_by_time _ _ _ Hc Hl).
    destruct (s - n <=? 0)%Z eqn:E; [apply Z.leb_le in E; lia|].
    rewrite (card_progress_waiting _ _ _ (waiting_state _)).
    eexists. split; [reflexivity|].
    split; [|apply clamp_bounds].
    set (d := (s - n)%Z) in *.
    assert (Hpos : 0 < inject_Z d).
    { change 0 with (inject_Z 0). rewrite <- Zlt_Qlt. lia. }
    unfold W. unfold Qdiv. change (/ inject_Z windowMs) with (1 # 7200000).
    change (inject_Z windowMs) with (7200000 # 1).
    assert (Hm : 0 < Qmin (inject_Z d) (7200000 # 1)).
    { apply Q.min_glb_lt; [exact Hpos | reflexivity]. }
    pose proof (Q.le_min_r (inject_Z d) (7200000 # 1)) as Hm'.
    set (m := Qmin (inject_Z d) (7200000 # 1)) in *.
    destruct (Qlt_le_dec (100 - m * (1 # 7200000) * 100) 3) as [Hlow | Hmid].
    + rewrite clamp_low by lra. symmetry. apply Q.max_l. lra.
    + rewrite clamp_mid by (split; lra). symmetry.
      rewrite Q.max_r by lra. lra.
  - intros now.
    replace (now + 3 * 60 * 60 * 1000)%Z with (10800000 + now)%Z by lia.
    rewrite useCountdown_scheduled.
    replace (10800000 + now - now)%Z with 10800000%Z by lia.
    vm_compute. reflexivity.
Qed.

(** A quarter of an hour to go for a scheduled match: the bar stands at
    87.5, the elapsed share of the window. *)
Lemma C4_progress_bar_witness :
  exists w,
    card_progress (useCountdown (Some 900000%Z) (VStr "scheduled") 0) = Some (Some w)
    /\ w == 175 # 2.
Proof.
  pose proof C4_progress_bar as (_ & _ & _ & _ & _ & _ & _ & _ & Hcard & _).
  destruct (Hcard (VStr "scheduled") 900000%Z 0%Z) as (w & Hw & Hshare & _);
    [discriminate | discriminate | lia |].
  exists w. split; [exact Hw|]. rewrite Hshare. vm_compute. reflexivity.
Defined.

(** C4, as the specification states it, fails when the remaining time is
    not a number.  A scheduled match whose start time is "1930", with no
    colon, has an Invalid Date for its start: the remaining time is NaN and
    so is the width of the bar the card renders, which is therefore not
    within 3 and 100. *)
Lemma C4_progress_bar_counterexample :
  (forall local, Upcoming.startDate local "2025-11-20" "1930" = None)
  /\ state (useCountdown None (VStr "scheduled") 0%Z) = "scheduled"
  /\ card_progress (useCountdown None (VStr "scheduled") 0%Z) = Some None
  /\ ProgressBar (inject_Z windowMs) None "scheduled" = None
  /\ ~ (exists w, ProgressBar (inject_Z windowMs) None "scheduled" = Some w
                   /\ 3 <= w /\ w <= 100).
Proof.
  split; [intros local; reflexivity|].
  split; [reflexivity|]. split; [reflexivity|]. split; [reflexivity|].
  intros (w & H & _). discriminate H.
Qed.

End ProgressFacts.

(** ** The day buckets *)

Section DayFilterFacts.

Import DayFilter.

Lemma days_in_month_bounds y m : 28 <= days_in_month y m <= 31.
Proof.
  unfold days_in_month.
  destruct (m =? 1); [destruct (is_leap y); lia|].
  destruct ((m =? 3) || (m =? 5) || (m =? 8) || (m =? 10)); lia.
Qed.

Lemma next_day_valid d : valid_date d -> valid_date (next_day d).
Proof.
  intros [Hm Hd]. unfold next_day, valid_date.
  destruct (getDate d <? _) eqn:E.
  - apply Z.ltb_lt in E. simpl. lia.
  - destruct (getMonth d <? 11) eqn:E'; simpl.
    + apply Z.ltb_lt in E'.
      pose proof (days_in_month_bounds (getFullYear d) (getMonth d + 1)). lia.
    + pose proof (days_in_month_bounds (getFullYear d + 1) 0). lia.
Qed.

Lemma day_after_valid today i : valid_date today -> valid_date (day_after today i).
Proof.
  intros H. unfold day_after. induction i as [|i IH]; simpl; [exact H|].
  apply next_day_valid, IH.
Qed.

Lemma days_lookup today (i : nat) :
  (i < 7)%nat -> days today !! i = Some (day_after today i).
Proof.
  intros Hi. unfold days.
  rewrite list_lookup_fmap, lookup_seq_lt by lia. reflexivity.
Qed.

Lemma days_length today : length (days today) = 7%nat.
Proof. reflexivity. Qed.

(** The callback on a match object whose date is the text [s]. *)
Lemma in_bucket_text target (o : gmap string value) s :
  o !! "date" = Some (VStr s) ->
  in_bucket target (VObj o) =
  Normal (match parseInt <$> split "-" s with
          | [Some y; Some m; Some d] =>
              (y =? getFullYear target) && (m - 1 =? getMonth target)
              && (d =? getDate target)
          | _ => false
          end).
Proof.
  intros Hd. unfold in_bucket. simpl. rewrite Hd.
  destruct (parseInt <$> split "-" s) as [|[y|] [|[m|] [|[d|] [|e l]]]];
    unfold at_index; simpl; rewrite ?andb_false_r; reflexivity.
Qed.

Lemma three_numbers_false s :
  three_numbers s = false ->
  match parseInt <$> split "-" s with
  | [Some _; Some _; Some _] => False
  | _ => True
  end.
Proof.
  unfold three_numbers.
  destruct (parseInt <$> split "-" s) as [|[y|] [|[m|] [|[d|] [|e l]]]]; simpl; auto.
  discriminate.
Qed.

Lemma in_bucket_total target m :
  has_date_text m -> exists b, in_bucket target m = Normal b.
Proof.
  intros (o & s & -> & Hd). rewrite (in_bucket_text _ _ _ Hd). eauto.
Qed.

Lemma read_digits_some s a : is_Some (read_digits s (Some a)).
Proof.
  revert a. induction s as [|c r IH]; intros a; cbn [read_digits]; [eauto|].
  destruct (digit_val c); [apply IH | eauto].
Qed.

(** [parseInt] reads a number off every text that starts with a digit. *)
Lemma parseInt_digit_first c r :
  Spec.is_digit c = true -> is_Some (parseInt (String c r)).
Proof.
  intros Hc.
  assert (E : parseInt (String c r) = read_digits (String c r) None
              /\ exists d, digit_val c = Some d).
  { destruct c as [[] [] [] [] [] [] [] []];
      first [discriminate Hc | split; [reflexivity | eexists; reflexivity]]. }
  destruct E as [-> [d Hd]]. cbn [read_digits]. rewrite Hd. apply read_digits_some.
Qed.

Lemma numeric_component_parseInt s :
  Spec.numeric_component s = true -> is_Some (parseInt s).
Proof.
  unfold Spec.numeric_component. destruct s as [|c r]; [discriminate|].
  cbn [String.eqb negb andb list_ascii_of_string forallb].
  intros H. apply andb_true_iff in H as [Hc _]. apply parseInt_digit_first, Hc.
Qed.

(** Three numeric components are three components that [parseInt] reads
    as numbers. *)
Lemma three_numeric_components_numbers s :
  Spec.three_numeric_components s = true -> three_numbers s = true.
Proof.
  unfold Spec.three_numeric_components, three_numbers.
  destruct (split "-" s) as [|y [|m [|d [|e l]]]]; try discriminate.
  intros H. apply andb_true_iff in H as [H Hd]. apply andb_true_iff in H as [Hy Hm].
  apply numeric_component_parseInt in Hy, Hm, Hd.
  destruct Hy as [? Hy], Hm as [? Hm], Hd as [? Hd].
  cbn [fmap list_fmap]. rewrite Hy, Hm, Hd. reflexivity.
Qed.

(** C3, as amended: whatever day today is, for each of the seven buckets:
    a match whose date text does not split on "-" into exactly three
    components that [parseInt] reads as numbers (a component is read as a
    number when, past white space and a sign, it starts with a digit;
    what follows the digits is not looked at) is rejected by the filter
    callback, which returns false and does not throw; so is a match dated
    "2025-13-40"; and filtering a listing whose matches all carry a date
    text returns a list, without throwing, that holds neither kind of
    match.  Every date so rejected for its components is one that does not
    split into three numeric components. *)
Theorem C3_malformed_date_excluded (today : date) (i : nat) :
  valid_date today -> (i < 7)%nat ->
  exists target,
    days today !! i = Some target
    /\ (forall s : string,
           three_numbers s = false -> Spec.three_numeric_components s = false)
    /\ (forall (o : gmap string value) (s : string),
           o !! "date" = Some (VStr s) -> three_numbers s = false ->
           in_bucket target (VObj o) = Normal false)
    /\ (forall o : gmap string value,
           o !! "date" = Some (VStr "2025-13-40") ->
           in_bucket target (VObj o) = Normal false)
    /\ (forall effectiveMatches : list value,
           Forall has_date_text effectiveMatches ->
           exists listed,
             filtered (Some effectiveMatches) (days today) i = Normal listed
             /\ forall (o : gmap string value) (s : string),
                 o !! "date" = Some (VStr s) ->
                 three_numbers s = false \/ s = "2025-13-40" ->
                 VObj o ∉ listed).
Proof.
  intros Hvalid Hi. exists (day_after today i).
  pose proof (day_after_valid today i Hvalid) as [Hm _].
  assert (Hbad : forall (o : gmap string value) s,
             o !! "date" = Some (VStr s) -> three_numbers s = false ->
             in_bucket (day_after today i) (VObj o) = Normal false).
  { intros o s Hd Hs. rewrite (in_bucket_text _ _ _ Hd).
    apply three_numbers_false in Hs.
    destruct (parseInt <$> split "-" s) as [|[y|] [|[m|] [|[d|] [|e l]]]];
      try reflexivity. contradiction. }
  assert (Hex : forall o : gmap string value,
             o !! "date" = Some (VStr "2025-13-40") ->
             in_bucket (day_after today i) (VObj o) = Normal false).
  { intros o Hd. rewrite (in_bucket_text _ _ _ Hd).
    change (parseInt <$> split "-" "2025-13-40") with [Some 2025; Some 13; Some 40].
    cbv beta iota.
    destruct (13 - 1 =? getMonth (day_after today i)) eqn:E.
    - apply Z.eqb_eq in E. lia.
    - rewrite andb_false_r. reflexivity. }
  split; [apply days_lookup; exact Hi|].
  split.
  { intros s Hs. destruct (Spec.three_numeric_components s) eqn:E; [|reflexivity].
    apply three_numeric_components_numbers in E. congruence. }
  split; [exact Hbad|]. split; [exact Hex|].
  intros ms Hms. unfold filtered. rewrite days_lookup by exact Hi. simpl.
  destruct (filterM_spec (in_bucket (day_after today i)) ms) as (l' & Hl' & Hin).
  { eapply Forall_impl; [exact Hms|]. intros x Hx. apply in_bucket_total, Hx. }
  exists l'. split; [exact Hl'|].
  intros o s Hd Hs Hmem. apply Hin in Hmem as [_ Htrue].
  destruct Hs as [Hs | ->].
  - rewrite (Hbad _ _ Hd Hs) in Htrue. discriminate.
  - rewrite (Hex _ Hd) in Htrue. discriminate.
Qed.

(** On 26 February 2024, the bucket of the day after the next, against a
    date of two components among well-formed ones. *)
Lemma C3_malformed_date_excluded_witness :
  exists listed,
    filtered (Some [VObj {["date" := VStr "2024-02-28"]};
                    VObj {["date" := VStr "2024-02"]};
                    VObj {["date" := VStr "2025-13-40"]}])
             (days (Date 2024 1 26)) 2 = Normal listed
    /\ (VObj {["date" := VStr "2024-02"]} ∉ listed)
    /\ (VObj {["date" := VStr "2025-13-40"]} ∉ listed).
Proof.
  destruct (C3_malformed_date_excluded (Date 2024 1 26) 2) as (target & _ & _ & _ & _ & H).
  - unfold valid_date. simpl. vm_compute. intuition discriminate.
  - lia.
  - destruct (H [VObj {["date" := VStr "2024-02-28"]};
                 VObj {["date" := VStr "2024-02"]};
                 VObj {["date" := VStr "2025-13-40"]}]) as (listed & Hl & Hout).
    + repeat constructor; eexists _, _; split;
        first [reflexivity | apply lookup_singleton_eq].
    + exists listed. split; [exact Hl|]. split.
      * apply (Hout _ "2024-02"); [apply lookup_singleton_eq | left; reflexivity].
      * apply (Hout _ "2025-13-40"); [apply lookup_singleton_eq | right; reflexivity].
Defined.

(** C3, as the specification states it, fails on a date whose third
    component only starts with a number.  On 20 November 2025 a match dated
    "2025-11-20T00:00:00.000Z", which does not split into three numeric
    components, is accepted by today's bucket and listed; so is, on
    2 November 2026, a match dated "2026-11-2x". *)
Lemma C3_malformed_date_excluded_counterexample :
  Spec.three_numeric_components "2025-11-20T00:00:00.000Z" = false
  /\ valid_date (Date 2025 10 20)
  /\ days (Date 2025 10 20) !! 0%nat = Some (Date 2025 10 20)
  /\ in_bucket (Date 2025 10 20) (VObj {["date" := VStr "2025-11-20T00:00:00.000Z"]})
     = Normal true
  /\ filtered (Some [VObj {["date" := VStr "2025-11-20T00:00:00.000Z"]}])
              (days (Date 2025 10 20)) 0
     = Normal [VObj {["date" := VStr "2025-11-20T00:00:00.000Z"]}]
  /\ Spec.three_numeric_components "2026-11-2x" = false
  /\ valid_date (Date 2026 10 2)
  /\ filtered (Some [VObj {["date" := VStr "2026-11-2x"]}]) (days (Date 2026 10 2)) 0
     = Normal [VObj {["date" := VStr "2026-11-2x"]}].
Proof.
  assert (H1 : in_bucket (Date 2025 10 20)
                 (VObj {["date" := VStr "2025-11-20T00:00:00.000Z"]}) = Normal true).
  { rewrite (in_bucket_text _ _ "2025-11-20T00:00:00.000Z") by apply lookup_singleton_eq.
    vm_compute. reflexivity. }
  assert (H2 : in_bucket (Date 2026 10 2) (VObj {["date" := VStr "2026-11-2x"]})
               = Normal true).
  { rewrite (in_bucket_text _ _ "2026-11-2x") by apply lookup_singleton_eq.
    vm_compute. reflexivity. }
  split; [vm_compute; reflexivity|].
  split; [unfold valid_date; vm_compute; intuition discriminate|].
  split; [reflexivity|].
  split; [exact H1|].
  split.
  { unfold filtered. change (days (Date 2025 10 20) !! 0%nat) with (Some (Date 2025 10 20)).
    cbn [default from_option id filterM bind]. rewrite H1. reflexivity. }
  split; [vm_compute; reflexivity|].
  split; [unfold valid_date; vm_compute; intuition discriminate|].
  unfold filtered. change (days (Date 2026 10 2) !! 0%nat) with (Some (Date 2026 10 2)).
  cbn [default from_option id filterM bind]. rewrite H2. reflexivity.
Qed.

End DayFilterFacts.

(** ** The localStorage path *)

Section StorageFacts.

Import Storage.


Lemma getMatches_total (localStorage : storage) :
  exists l, getMatches localStorage = Normal l.
Proof.
  unfold getMatches, getItem.
  destruct (available localStorage); cbn [bind try_catch]; [|eauto].
  destruct (items localStorage !! KEY) as [[raw|doc]|]; simpl.
  - destruct (String.eqb raw ""); simpl; eauto.
  - eauto.
  - eauto.
Qed.

(** C7: whatever localStorage holds, [getMatches] returns a list and does
    not throw; it returns the empty list when the key is absent, when its
    text does not parse as JSON, when it parses to anything but an array,
    and when the storage cannot be read at all; it returns the array when
    there is one. *)
Theorem C7_getMatches_never_throws :
  (forall localStorage : storage,
      exists l, getMatches localStorage = Normal l)
  /\ (forall others : gmap string item,
         getMatches (Store true (delete KEY others)) = Normal [])
  /\ (forall (others : gmap string item) (raw : string),
         getMatches (Store true (<[KEY := Malformed raw]> others)) = Normal [])
  /\ (forall (others : gmap string item) (doc : value),
         getMatches (Store true (<[KEY := Json doc]> others))
         = Normal (match doc with VArr l => l | _ => [] end))
  /\ (forall others : gmap string item,
         getMatches (Store false others) = Normal []).
Proof.
  split; [exact getMatches_total|]. split; [|split; [|split]].
  - intros ls. unfold getMatches, getItem. cbn [available items bind].
    rewrite lookup_delete_eq. reflexivity.
  - intros ls raw. unfold getMatches, getItem. cbn [available items bind].
    rewrite lookup_insert_eq. simpl.
    destruct (String.eqb raw ""); reflexivity.
  - intros ls doc. unfold getMatches, getItem. cbn [available items bind].
    rewrite lookup_insert_eq. reflexivity.
  - intros ls. reflexivity.
Qed.

Lemma strict_eq_refl v : primitive (Some v) = true -> strict_eq v v = true.
Proof.
  destruct v; simpl; try reflexivity; try discriminate; intros _.
  - destruct b; reflexivity.
  - apply Qeq_bool_iff. reflexivity.
  - apply String.eqb_refl.
Qed.

Lemma strict_eq_u_refl a : primitive a = true -> strict_eq_u a a = true.
Proof. destruct a as [v|]; [apply strict_eq_refl | reflexivity]. Qed.





End StorageFacts.

(** ** The REST client *)

Section ApiFacts.

Import Api.

Lemma ok_iff res : ok res = true <-> 200 <= status res <= 299.
Proof. unfold ok. rewrite andb_true_iff, !Z.leb_le. reflexivity. Qed.

(** C6: for every response the client gets: with status 204 the request
    resolves to null; with a status outside 200-299 it rejects with an
    error whose message is the text of the body, or the status text when
    that text is empty; and it rejects with such an error exactly when the
    status is outside 200-299. *)
Theorem C6_request_outcomes (res : response) :
  (status res = 204 -> request (Normal res) = Normal VNull)
  /\ (~ 200 <= status res <= 299 ->
      request (Normal res)
      = Throw (Error (if String.eqb (text res) "" then statusText res else text res)))
  /\ ((exists message, request (Normal res) = Throw (Error message))
      <-> ~ 200 <= status res <= 299).
Proof.
  unfold request. cbn [bind].
  destruct (ok res) eqn:Hok; cbn [negb].
  - apply ok_iff in Hok. split; [|split].
    + intros ->. reflexivity.
    + intros H. contradiction.
    + split; [|intros H; contradiction].
      intros [message H].
      destruct (status res =? 204); [discriminate|].
      unfold json in H. destruct (body_json res); discriminate.
  - assert (Hnot : ~ 200 <= status res <= 299).
    { intros H. apply ok_iff in H. congruence. }
    split; [|split].
    + intros H. exfalso. apply Hnot. lia.
    + intros _. simpl. destruct (String.eqb (text res) ""); reflexivity.
    + split; [intros _; exact Hnot | intros _; eauto].
Qed.

(** A 204 without body, and a 404 whose body is empty. *)
Lemma C6_request_outcomes_witness :
  request (Normal (Response 204 "No Content" "" None)) = Normal VNull
  /\ request (Normal (Response 404 "Not Found" "" None)) = Throw (Error "Not Found").
Proof.
  split.
  - apply (C6_request_outcomes (Response 204 "No Content" "" None)). reflexivity.
  - apply (C6_request_outcomes (Response 404 "Not Found" "" None)). simpl. lia.
Defined.

End ApiFacts.

(** ** The route guard *)

Section GuardFacts.

Import Guard.

Context {A : Type}.

Lemma token_absent_cases :
  token_absent None /\ token_absent (Some VNull)
  /\ forall s, token_absent (Some (VStr s)) <-> s = "".
Proof.
  unfold token_absent. simpl. split; [reflexivity|]. split; [reflexivity|].
  intros s. rewrite negb_false_iff. apply String.eqb_eq.
Qed.

(** C8: for every token and user of the session store and every requested
    path, the guard renders the redirection to "/login", replacing the
    history entry and carrying the requested path as [from], exactly when
    the store holds no token or the user's role is not 'admin'; it renders
    its children, the admin content, exactly when there is a token and the
    role is 'admin'.  An undefined or null token is no token, and a text is
    one unless it is empty. *)
Theorem C8_guard_redirects (token user : option value) (pathname : string) (children : A) :
  (RequireAdmin token user pathname children = Navigate "/login" true pathname
   <-> token_absent token \/ ~ is_admin user)
  /\ (RequireAdmin token user pathname children = Children children
      <-> ~ (token_absent token \/ ~ is_admin user))
  /\ (token_absent None /\ token_absent (Some VNull)
      /\ forall s, token_absent (Some (VStr s)) <-> s = "").
Proof.
  match goal with
  | |- ?P /\ ?Q /\ _ =>
      cut (P /\ Q); [intros [H1 H2]; exact (conj H1 (conj H2 token_absent_cases))|]
  end.
  unfold RequireAdmin, token_absent, is_admin.
  assert (Hrole : strict_eq_u (get_opt user "role") (Some (VStr "admin")) = true
                  <-> get_opt user "role" = Some (VStr "admin")).
  { destruct (get_opt user "role") as [v|]; simpl.
    - rewrite strict_eq_str. split; congruence.
    - split; discriminate. }
  destruct (truthy token) eqn:Ht; simpl.
  - destruct (strict_eq_u (get_opt user "role") (Some (VStr "admin"))) eqn:Hr; simpl.
    + pose proof (proj1 Hrole eq_refl) as Hadm.
      split; split; try discriminate; try reflexivity.
      * intros [H | H]; [discriminate | contradiction].
      * intros _ [H | H]; [discriminate | contradiction].
    + assert (Hn : get_opt user "role" <> Some (VStr "admin")).
      { intros H. apply Hrole in H. discriminate. }
      split; split; try discriminate; auto.
      intros H. exfalso. apply H. right. exact Hn.
  - split; split; try discriminate; auto.
    intros H. exfalso. apply H. left. reflexivity.
Qed.

End GuardFacts.

(** ** The admin list after "Set Live" *)

Section AdminFacts.

Import Admin.

Lemma strict_eq_u_join a b c :
  strict_eq_u a c = true -> strict_eq_u b c = true -> strict_eq_u a b = true.
Proof.
  destruct a as [[]|], b as [[]|], c as [[]|]; simpl; try discriminate; auto.
  - intros H1 H2. apply Bool.eqb_prop in H1, H2. subst. apply Bool.eqb_reflx.
  - rewrite !Qeq_bool_iff. intros H1 H2. rewrite H1, H2. reflexivity.
  - rewrite !String.eqb_eq. congruence.
Qed.

Lemma reconcile_entry_object (u x : gmap string value) :
  reconcile_entry (VObj u) (VObj x) =
  Normal (VObj (if same_id x u then u
                else if is_live x then <["status" := VStr "scheduled"]> x else x)).
Proof.
  unfold reconcile_entry, same_id, is_live. simpl.
  destruct (strict_eq_u (x !! "_id") (u !! "_id")); [reflexivity|].
  destruct (strict_eq_u (x !! "status") (Some (VStr "live"))); reflexivity.
Qed.

Lemma demoted_not_live (x : gmap string value) :
  is_live (<["status" := VStr "scheduled"]> x) = false.
Proof. unfold is_live. rewrite lookup_insert_eq. reflexivity. Qed.

(** C9: for every list of match objects and every match object returned
    by the set-live call, the updater returns a list of the same length in
    which an entry with the id of the returned match is that match, any
    other entry whose status was 'live' has status 'scheduled' and all its
    other fields as before, and every remaining entry is as before; when
    the ids of the list are unique, at most one entry of the result has
    status 'live'. *)
Theorem C9_set_live_reconciled (prev : list (gmap string value)) (u : gmap string value) :
  exists next : list (gmap string value),
    reconcile (VObj u) (VObj <$> prev) = Normal (VObj <$> next)
    /\ length next = length prev
    /\ (forall (i : nat) (x : gmap string value),
           prev !! i = Some x ->
           exists y, next !! i = Some y
                     /\ (same_id x u = true -> y = u)
                     /\ (same_id x u = false -> is_live x = true ->
                         y !! "status" = Some (VStr "scheduled")
                         /\ forall k, k <> "status" -> y !! k = x !! k)
                     /\ (same_id x u = false -> is_live x = false -> y = x))
    /\ (unique_ids prev ->
        forall (i j : nat) (y z : gmap string value),
          next !! i = Some y -> next !! j = Some z ->
          is_live y = true -> is_live z = true -> i = j).
Proof.
  set (step := fun x : gmap string value =>
                 if same_id x u then u
                 else if is_live x then <["status" := VStr "scheduled"]> x else x).
  exists (step <$> prev).
  assert (Hrun : reconcile (VObj u) (VObj <$> prev) = Normal (VObj <$> (step <$> prev))).
  { unfold reconcile. induction prev as [|x l IH]; [reflexivity|].
    cbn [fmap list_fmap mapM]. rewrite reconcile_entry_object. cbn [bind].
    fold (fmap (M := list) VObj l). rewrite IH. reflexivity. }
  assert (Hentry : forall i x, prev !! i = Some x -> (step <$> prev) !! i = Some (step x)).
  { intros i x Hx. rewrite list_lookup_fmap, Hx. reflexivity. }
  assert (Hlive : forall x, is_live (step x) = true -> same_id x u = true).
  { intros x. unfold step. destruct (same_id x u); [reflexivity|].
    destruct (is_live x) eqn:E; [rewrite demoted_not_live | rewrite E]; discriminate. }
  split; [exact Hrun|]. split; [apply length_fmap|]. split.
  - intros i x Hx. exists (step x). split; [apply Hentry, Hx|].
    unfold step. split; [|split].
    + intros ->. reflexivity.
    + intros -> ->. split; [apply lookup_insert_eq|].
      intros k Hk. apply lookup_insert_ne. congruence.
    + intros -> ->. reflexivity.
  - intros Huniq i j y z Hy Hz Hly Hlz.
    rewrite list_lookup_fmap in Hy, Hz.
    destruct (prev !! i) as [x|] eqn:Hx; [|discriminate].
    destruct (prev !! j) as [x'|] eqn:Hx'; [|discriminate].
    simpl in Hy, Hz. injection Hy as <-. injection Hz as <-.
    apply Hlive in Hly, Hlz.
    apply (Huniq i j x x' Hx Hx').
    unfold same_id in *. eapply strict_eq_u_join; eassumption.
Qed.

(** Three matches, the first one live; the server answers with the second
    one set live. *)
Lemma C9_set_live_reconciled_witness :
  let m1 : gmap string value := {["_id" := VStr "m1"; "status" := VStr "live"]} in
  let m2 : gmap string value := {["_id" := VStr "m2"; "status" := VStr "scheduled"]} in
  let m3 : gmap string value := {["_id" := VStr "m3"; "status" := VStr "completed"]} in
  let u : gmap string value := {["_id" := VStr "m2"; "status" := VStr "live"]} in
  unique_ids [m1; m2; m3]
  /\ exists next : list (gmap string value),
      reconcile (VObj u) (VObj <$> [m1; m2; m3]) = Normal (VObj <$> next)
      /\ forall (i j : nat) (y z : gmap string value),
          next !! i = Some y -> next !! j = Some z ->
          is_live y = true -> is_live z = true -> i = j.
Proof.
  intros m1 m2 m3 u.
  assert (Huniq : unique_ids [m1; m2; m3]).
  { intros i j x y Hx Hy.
    destruct i as [|[|[|i]]], j as [|[|[|j]]]; simpl in Hx, Hy;
      try discriminate; injection Hx as <-; injection Hy as <-;
      vm_compute; congruence. }
  split; [exact Huniq|].
  destruct (C9_set_live_reconciled [m1; m2; m3] u) as (next & Hrun & _ & _ & Hone).
  exists next. split; [exact Hrun | exact (Hone Huniq)].
Defined.

End AdminFacts.

(** * More properties *)

(** ** Searching and mapping with callbacks *)

Section MoreCompletionFacts.

Context {A : Type}.



Lemma findIndex_from_throw (p : A -> completion bool) (l : list A) (i : Z) (n : nat)
    (x : A) (e : exn) :
  l !! n = Some x -> p x = Throw e ->
  (forall (j : nat) (y : A), (j < n)%nat -> l !! j = Some y -> p y = Normal false) ->
  findIndex_from p l i = Throw e.
Proof.
  revert i n. induction l as [|a l IH]; intros i n Hx Hp Hbefore; [discriminate|].
  destruct n as [|n]; simpl in *.
  - injection Hx as ->. rewrite Hp. reflexivity.
  - rewrite (Hbefore 0%nat a) by (lia || reflexivity). simpl.
    apply (IH (i + 1) n Hx Hp).
    intros j y Hj Hy. apply (Hbefore (S j) y); [lia | exact Hy].
Qed.


Lemma filterM_pure (p : A -> completion bool) (q : A -> bool) (l : list A) :
  Forall (fun x => p x = Normal (q x)) l ->
  filterM p l = Normal (List.filter q l).
Proof.
  induction 1 as [|a l Ha _ IH]; simpl; [reflexivity|].
  rewrite Ha, IH. simpl. destruct (q a); reflexivity.
Qed.

Lemma filterM_throw (p : A -> completion bool) (l : list A) (n : nat) (x : A) (e : exn) :
  l !! n = Some x -> p x = Throw e ->
  (forall (j : nat) (y : A), (j < n)%nat -> l !! j = Some y -> exists b, p y = Normal b) ->
  filterM p l = Throw e.
Proof.
  revert n. induction l as [|a l IH]; intros n Hx Hp Hbefore; [discriminate|].
  destruct n as [|n]; simpl in *.
  - injection Hx as ->. rewrite Hp. reflexivity.
  - destruct (Hbefore 0%nat a) as [b Hb]; [lia | reflexivity |].
    rewrite Hb. simpl.
    rewrite (IH n Hx Hp); [reflexivity|].
    intros j y Hj Hy. apply (Hbefore (S j) y); [lia | exact Hy].
Qed.

Lemma mapM_pure {B : Type} (f : A -> completion B) (g : A -> B) (l : list A) :
  Forall (fun x => f x = Normal (g x)) l ->
  mapM f l = Normal (g <$> l).
Proof.
  induction 1 as [|a l Ha _ IH]; simpl; [reflexivity|].
  rewrite Ha. simpl. rewrite IH. reflexivity.
Qed.

Lemma filter_all_true (q : A -> bool) (l : list A) :
  Forall (fun x => q x = true) l -> List.filter q l = l.
Proof.
  induction 1 as [|a l Ha _ IH]; simpl; [reflexivity|]. rewrite Ha, IH. reflexivity.
Qed.

End MoreCompletionFacts.

(** ** The stored list under upsert and delete *)

Section StorageMoreFacts.

Import Storage Entries.

Lemma get_get_opt e k : readable e -> get (Some e) k = Normal (get_opt (Some e) k).
Proof. intros H. destruct e; try reflexivity. contradiction. Qed.

Lemma upsert_callback (m : gmap string value) (e : value) :
  readable e ->
  (a <- get (Some e) "id" ;; b <- get (Some (VObj m)) "id" ;; Normal (strict_eq_u a b))
  = Normal (has_id (m !! "id") e).
Proof. intros H. rewrite (get_get_opt e "id" H). reflexivity. Qed.

Lemma delete_callback (id : option value) (e : value) :
  readable e ->
  (a <- get (Some e) "id" ;; Normal (negb (strict_eq_u a id)))
  = Normal (negb (has_id id e)).
Proof. intros H. rewrite (get_get_opt e "id" H). reflexivity. Qed.

Lemma saveMatches_frame (l : option (list value)) (ls ls' : storage) :
  saveMatches l ls = Normal ls' ->
  available ls = true /\ available ls' = true
  /\ items ls' = <[KEY := JSON_stringify (VArr (default [] l))]> (items ls).
Proof.
  unfold saveMatches, setItem. destruct (available ls); [|discriminate].
  intros H. injection H as <-. auto.
Qed.














(** X6: a successful [upsertMatch] or [deleteMatch] writes the match-list
    key only: every other key of localStorage, the session's among them,
    keeps its item. *)
Theorem X6_other_keys_untouched (ls ls' : storage) :
  (exists m, upsertMatch m ls = Normal ls') \/ (exists id, deleteMatch id ls = Normal ls') ->
  forall k : string, k <> KEY -> items ls' !! k = items ls !! k.
Proof.
  intros H k Hk.
  assert (Hsave : exists l, saveMatches l ls = Normal ls').
  { destruct H as [[m H] | [id H]].
    - unfold upsertMatch in H.
      destruct (getMatches ls) as [l|]; [|discriminate]. cbn [bind] in H.
      destruct (findIndex _ l) as [idx|]; [|discriminate]. cbn [bind] in H. eauto.
    - unfold deleteMatch in H.
      destruct (getMatches ls) as [l|]; [|discriminate]. cbn [bind] in H.
      destruct (filterM _ l) as [l'|]; [|discriminate]. cbn [bind] in H. eauto. }
  destruct Hsave as [l Hl]. apply saveMatches_frame in Hl as (_ & _ & ->).
  apply lookup_insert_ne. congruence.
Qed.

Lemma X6_other_keys_untouched_witness :
  exists ls',
    upsertMatch (VObj {["id" := VStr "b"]})
      (Store true {["npl_token_v1" := Malformed "secret"]}) = Normal ls'
    /\ items ls' !! "npl_token_v1" = Some (Malformed "secret").
Proof.
  assert (H : exists ls',
             upsertMatch (VObj {["id" := VStr "b"]})
               (Store true {["npl_token_v1" := Malformed "secret"]}) = Normal ls')
    by (eexists; reflexivity).
  destruct H as [ls' H]. exists ls'. split; [exact H|].
  rewrite (X6_other_keys_untouched _ ls' (or_introl (ex_intro _ _ H)) "npl_token_v1").
  - reflexivity.
  - discriminate.
Defined.

(** X7: a null entry in the stored list makes the writers throw a
    TypeError: [deleteMatch] always, [upsertMatch] when no entry before the
    null one has the id of the match. *)
Theorem X7_null_entry_throws (ls : storage) (stored : list value) (n : nat) :
  getMatches ls = Normal stored ->
  stored !! n = Some VNull ->
  (forall (j : nat) (y : value), (j < n)%nat -> stored !! j = Some y -> readable y) ->
  (forall id : option value, deleteMatch id ls = Throw TypeError)
  /\ (forall m : gmap string value,
         (forall (j : nat) (y : value),
             (j < n)%nat -> stored !! j = Some y -> has_id (m !! "id") y = false) ->
         upsertMatch (VObj m) ls = Throw TypeError).
Proof.
  intros Hst Hnull Hread. split.
  - intros id. unfold deleteMatch. rewrite Hst. cbn [bind].
    rewrite (filterM_throw _ stored n VNull TypeError Hnull); [reflexivity | reflexivity |].
    intros j y Hj Hy. rewrite delete_callback by (apply (Hread j y Hj Hy)). eauto.
  - intros m Hfresh. unfold upsertMatch, findIndex. rewrite Hst. cbn [bind].
    rewrite (findIndex_from_throw _ stored 0 n VNull TypeError Hnull);
      [reflexivity | reflexivity |].
    intros j y Hj Hy. rewrite upsert_callback by (apply (Hread j y Hj Hy)).
    f_equal. apply (Hfresh j y Hj Hy).
Qed.

Lemma X7_null_entry_throws_witness :
  deleteMatch (Some (VStr "a"))
    (Store true {[KEY := Json (VArr [VObj {["id" := VStr "a"]}; VNull])]}) = Throw TypeError
  /\ upsertMatch (VObj {["id" := VStr "b"]})
       (Store true {[KEY := Json (VArr [VObj {["id" := VStr "a"]}; VNull])]}) = Throw TypeError.
Proof.
  destruct (X7_null_entry_throws
              (Store true {[KEY := Json (VArr [VObj {["id" := VStr "a"]}; VNull])]})
              [VObj {["id" := VStr "a"]}; VNull] 1) as [Hdel Hup].
  - reflexivity.
  - reflexivity.
  - intros [|j] y Hj Hy; [|lia]. injection Hy as <-. discriminate.
  - split; [apply Hdel|]. apply Hup.
    intros [|j] y Hj Hy; [|lia]. injection Hy as <-. reflexivity.
Defined.

End StorageMoreFacts.

(** ** The match card over time *)

Section CardFacts.

Import Resolver Upcoming.

(** X8: whatever the status and the dates are, the resolver's state is one
    of "scheduled", "soon", "live" and "completed", and the badge of the
    card reads that state in capitals. *)
Theorem X8_state_and_badge (status : value) (startDate : option Z) (now : Z) :
  let st := state (useCountdown startDate status now) in
  st = "scheduled" /\ stateLabel st = "SCHEDULED"
  \/ st = "soon" /\ stateLabel st = "SOON"
  \/ st = "live" /\ stateLabel st = "LIVE"
  \/ st = "completed" /\ stateLabel st = "COMPLETED".
Proof.
  cbv zeta.
  destruct (useCountdown_cases status startDate now) as [[_ ->] | [[_ ->] | (_ & _ & ->)]].
  - right. right. right. split; reflexivity.
  - right. right. left. split; reflexivity.
  - destruct startDate as [s|]; [|left; split; reflexivity].
    destruct (s - now <=? 0).
    + right. right. left. split; reflexivity.
    + cbn [state]. destruct (s - now <=? Spec.ten_minutes).
      * right. left. split; reflexivity.
      * left. split; reflexivity.
Qed.

(** X9: as the clock advances the state of a card never goes back: once
    "live" it stays "live", once "soon" it is "soon" or "live", and a card
    that reads "scheduled" read "scheduled" at every earlier instant. *)
Theorem X9_state_never_goes_back (status : value) (startDate : option Z) (now now' : Z) :
  now <= now' ->
  let st := state (useCountdown startDate status now) in
  let st' := state (useCountdown startDate status now') in
  (st = "live" -> st' = "live")
  /\ (st = "soon" -> st' = "soon" \/ st' = "live")
  /\ (st' = "scheduled" -> st = "scheduled").
Proof.
  intros Hle. cbv zeta.
  destruct (useCountdown_cases status startDate now) as [[Hs ->] | [[Hs ->] | (Hc & Hl & ->)]].
  - subst. cbn [state]. repeat split; intros; discriminate || auto.
  - subst. cbn [state]. repeat split; intros; discriminate || auto.
  - destruct startDate as [s|].
    2:{ rewrite (useCountdown_invalid _ _ Hc Hl). cbn [state].
        repeat split; intros; discriminate || auto. }
    rewrite (useCountdown_by_time _ _ _ Hc Hl). unfold Spec.ten_minutes.
    destruct (s - now <=? 0) eqn:E1; destruct (s - now' <=? 0) eqn:E1';
      cbn [state];
      try destruct (s - now <=? 600000) eqn:E2;
      try destruct (s - now' <=? 600000) eqn:E2';
      repeat split; intros; try discriminate; auto;
      exfalso;
      repeat match goal with
             | H : (_ <=? _) = true |- _ => apply Z.leb_le in H
             | H : (_ <=? _) = false |- _ => apply Z.leb_gt in H
             end; lia.
Qed.

Lemma X9_state_never_goes_back_witness :
  state (useCountdown (Some 600000) (VStr "scheduled") 0) = "soon"
  /\ (state (useCountdown (Some 600000) (VStr "scheduled") 600000) = "soon"
      \/ state (useCountdown (Some 600000) (VStr "scheduled") 600000) = "live").
Proof.
  split; [reflexivity|].
  apply (X9_state_never_goes_back (VStr "scheduled") (Some 600000) 0 600000);
    [lia | reflexivity].
Defined.

(** X13: the card offers the reminder exactly when the match is declared
    neither completed nor live and its start date is not a valid instant
    that is reached: the start lies ahead, or it is an Invalid Date. *)
Theorem X13_reminder_iff_upcoming (status : value) (startDate : option Z) (now : Z) :
  reminder_shown (state (useCountdown startDate status now)) = true
  <-> status <> VStr "completed" /\ status <> VStr "live"
      /\ match startDate with
         | Some startInstant => now < startInstant
         | None => True
         end.
Proof.
  destruct (useCountdown_cases status startDate now) as [[Hs ->] | [[Hs ->] | (Hc & Hl & ->)]].
  - subst. cbn [state]. split; [discriminate | intros (H & _); congruence].
  - subst. cbn [state]. split; [discriminate | intros (_ & H & _); congruence].
  - destruct startDate as [s|].
    2:{ cbn [state]. split; [intros _; repeat split; assumption | reflexivity]. }
    destruct (s - now <=? 0) eqn:E; cbn [state].
    + apply Z.leb_le in E. split; [discriminate | intros (_ & _ & H); lia].
    + apply Z.leb_gt in E.
      destruct (s - now <=? Spec.ten_minutes);
        (split; [intros _; repeat split; [assumption | assumption | lia] | reflexivity]).
Qed.

End CardFacts.

(** ** Reading the countdown label back *)

Section LabelFacts.

Import Resolver DayFilter Numeral.

Lemma split_no_sep (sep : ascii) (s : string) :
  Forall (fun c => c <> sep) (list_ascii_of_string s) -> split sep s = [s].
Proof.
  induction s as [|c s IH]; simpl; intros H; [reflexivity|].
  inversion H as [|? ? Hc Hs]; subst.
  destruct (Ascii.eqb c sep) eqn:E; [apply Ascii.eqb_eq in E; contradiction|].
  rewrite (IH Hs). reflexivity.
Qed.

Lemma split_app (sep : ascii) (a b : string) :
  Forall (fun c => c <> sep) (list_ascii_of_string a) ->
  split sep (a +:+ String sep b) = a :: split sep b.
Proof.
  induction a as [|c a IH]; simpl; intros H.
  - rewrite Ascii.eqb_refl. reflexivity.
  - inversion H as [|? ? Hc Hs]; subst.
    destruct (Ascii.eqb c sep) eqn:E; [apply Ascii.eqb_eq in E; contradiction|].
    change (String.append a (String sep b)) with (a +:+ String sep b).
    rewrite (IH Hs). reflexivity.
Qed.

Lemma digits_numeric fuel :
  forall n acc, 0 <= n -> numeric acc -> numeric (digits fuel n acc).
Proof.
  induction fuel as [|fuel IH]; intros n acc Hn Hacc; [exact Hacc|].
  rewrite digits_step.
  assert (Hhead : numeric (String (digit (n mod 10)) acc)).
  { constructor; [|exact Hacc]. exists (n mod 10). split; [|reflexivity].
    pose proof (Z.mod_pos_bound n 10 ltac:(lia)). lia. }
  destruct (n <? 10); [exact Hhead|].
  apply IH; [apply Z.div_pos; lia | exact Hhead].
Qed.

Lemma toString_numeric n : 0 <= n -> numeric (toString n).
Proof.
  intros Hn. unfold toString.
  destruct (n <? 0) eqn:E; [apply Z.ltb_lt in E; lia|].
  apply digits_numeric; [exact Hn | constructor].
Qed.

Lemma field_numeric n : 0 <= n -> numeric (Spec.field n).
Proof.
  intros Hn. unfold Spec.field. destruct (n <? 10).
  - constructor; [|apply toString_numeric, Hn]. exists 0. split; [lia | reflexivity].
  - apply toString_numeric, Hn.
Qed.

Lemma numeric_no_sep (sep : ascii) (s : string) :
  sep = ":"%char \/ sep = "-"%char ->
  numeric s -> Forall (fun c => c <> sep) (list_ascii_of_string s).
Proof.
  intros Hsep H. eapply Forall_impl; [exact H|].
  intros c (d & Hd & ->).
  destruct (digit_cases d Hd) as [-> | [-> | [-> | [-> | [-> | [-> | [-> | [-> | [-> | ->]]]]]]]]];
    destruct Hsep as [-> | ->]; discriminate.
Qed.

Lemma parseInt_digit_head d rest :
  0 <= d <= 9 -> parseInt (String (digit d) rest) = read_digits (String (digit d) rest) None.
Proof.
  intros Hd.
  destruct (digit_cases d Hd) as [-> | [-> | [-> | [-> | [-> | [-> | [-> | [-> | [-> | ->]]]]]]]]];
    reflexivity.
Qed.

Lemma parseInt_field n : 0 <= n -> parseInt (Spec.field n) = Some n.
Proof.
  intros Hn. unfold Spec.field. destruct (n <? 10) eqn:E.
  - apply Z.ltb_lt in E. rewrite toString_digit by lia.
    change "0"%char with (digit 0).
    rewrite parseInt_digit_head by lia.
    rewrite !read_digits_digit by lia. cbn [default from_option id read_digits].
    first [reflexivity | f_equal; lia].
  - apply toString_parseInt, Hn.
Qed.

Lemma append_char (c : ascii) (x : string) : String c EmptyString +:+ x = String c x.
Proof. reflexivity. Qed.

Lemma duration_fields (remainingMs : Z) :
  0 <= remainingMs ->
  let t := remainingMs / 1000 in
  parseInt <$> split ":" (Spec.duration remainingMs)
  = (if Spec.one_hour <=? remainingMs
     then [Some (t / 3600); Some (t / 60 mod 60); Some (t mod 60)]
     else [Some (t / 60 mod 60); Some (t mod 60)]).
Proof.
  intros Hr t.
  assert (Ht : 0 <= t) by (apply Z.div_pos; lia).
  assert (Hh : 0 <= t / 3600) by (apply Z.div_pos; lia).
  assert (Hm : 0 <= t / 60 mod 60) by (apply Z.mod_pos_bound; lia).
  assert (Hs : 0 <= t mod 60) by (apply Z.mod_pos_bound; lia).
  unfold Spec.duration. fold t.
  destruct (Spec.one_hour <=? remainingMs); rewrite !append_char.
  - rewrite split_app by (apply numeric_no_sep; [left; reflexivity | apply field_numeric, Hh]).
    rewrite split_app by (apply numeric_no_sep; [left; reflexivity | apply field_numeric, Hm]).
    rewrite split_no_sep by (apply numeric_no_sep; [left; reflexivity | apply field_numeric, Hs]).
    cbn [fmap list_fmap]. rewrite !parseInt_field by assumption. reflexivity.
  - rewrite split_app by (apply numeric_no_sep; [left; reflexivity | apply field_numeric, Hm]).
    rewrite split_no_sep by (apply numeric_no_sep; [left; reflexivity | apply field_numeric, Hs]).
    cbn [fmap list_fmap]. rewrite !parseInt_field by assumption. reflexivity.
Qed.

(** X10: while a match declared neither completed nor live has not
    started, its countdown label reads back: split on ":" and parsed, its
    fields are the hours (from one hour on), minutes and seconds of the time
    left, which add up to that time in whole seconds, minutes and seconds
    staying below 60. *)
Theorem X10_label_reads_back (status : value) (startDate now : Z) :
  status <> VStr "completed" -> status <> VStr "live" -> now < startDate ->
  let t := (startDate - now) / 1000 in
  exists h m s,
    parseInt <$> split ":" (countdownLabel (useCountdown (Some startDate) status now))
    = (if Spec.one_hour <=? startDate - now then [Some h; Some m; Some s]
       else [Some m; Some s])
    /\ 3600 * h + 60 * m + s = t
    /\ 0 <= m < 60 /\ 0 <= s < 60
    /\ (h = 0 <-> startDate - now < Spec.one_hour).
Proof.
  intros Hc Hl Hlt t.
  exists (t / 3600), (t / 60 mod 60), (t mod 60).
  rewrite (useCountdown_by_time _ _ _ Hc Hl).
  destruct (startDate - now <=? 0) eqn:E; [apply Z.leb_le in E; lia|].
  cbn [countdownLabel].
  split; [apply duration_fields; lia|].
  assert (Ht : 0 <= t) by (apply Z.div_pos; lia).
  pose proof (Z.mod_pos_bound (t / 60) 60 ltac:(lia)).
  pose proof (Z.mod_pos_bound t 60 ltac:(lia)).
  split; [|split; [lia|split; [lia|]]].
  - pose proof (Z.div_mod t 60 ltac:(lia)).
    pose proof (Z.div_mod (t / 60) 60 ltac:(lia)).
    replace (t / 3600) with (t / 60 / 60) by (rewrite Z.div_div by lia; reflexivity).
    lia.
  - unfold Spec.one_hour, t. rewrite Z.div_div by lia. change (1000 * 3600) with 3600000.
    split.
    + intros Hz. apply Z.div_small_iff in Hz; lia.
    + intros Hsmall. apply Z.div_small. lia.
Qed.

Lemma X10_label_reads_back_witness :
  exists h m s,
    parseInt <$> split ":" (countdownLabel (useCountdown (Some 3661000) (VStr "soon") 0))
    = [Some h; Some m; Some s]
    /\ 3600 * h + 60 * m + s = 3661.
Proof.
  destruct (X10_label_reads_back (VStr "soon") 3661000 0) as (h & m & s & H1 & H2 & _);
    [discriminate | discriminate | lia |].
  exists h, m, s. split; [exact H1 | exact H2].
Defined.

End LabelFacts.

(** ** The progress bar over time *)

Section BarFacts.

Import Resolver.

Local Open Scope Q_scope.

Lemma clamp_mono (a b : Q) : a <= b -> clamp a <= clamp b.
Proof.
  intros H. unfold clamp. apply Q.min_le_compat_r, Q.max_le_compat_r, H.
Qed.

Lemma pct_antitone (r r' : Q) :
  r' <= r ->
  100 - r / inject_Z windowMs * 100 <= 100 - r' / inject_Z windowMs * 100.
Proof.
  intros H. unfold Qdiv. change (/ inject_Z windowMs) with (1 # 7200000). lra.
Qed.

(** X11: for a match not declared completed whose start date is valid the
    card always shows a bar whose width is a number, and as the clock
    advances the bar never recedes.  When the start date is an Invalid Date
    the card still shows a bar: its width is 100 for a match declared live
    and NaN for any other. *)
Theorem X11_bar_never_recedes (status : value) (startDate now now' : Z) :
  status <> VStr "completed" -> (now <= now')%Z ->
  (exists w w',
      card_progress (useCountdown (Some startDate) status now) = Some (Some w)
      /\ card_progress (useCountdown (Some startDate) status now') = Some (Some w')
      /\ w <= w')
  /\ (status = VStr "live" ->
      card_progress (useCountdown None status now) = Some (Some 100))
  /\ (status <> VStr "live" ->
      card_progress (useCountdown None status now) = Some None).
Proof.
  intros Hc Hle. split; [|split].
  - destruct (useCountdown_cases status (Some startDate) now)
      as [[Hs _] | [[Hs _] | (_ & Hl & _)]];
      [contradiction | |].
    + subst. eexists _, _. split; [reflexivity|]. split; [reflexivity|]. apply Qle_refl.
    + rewrite !(useCountdown_by_time _ _ _ Hc Hl).
      destruct (startDate - now <=? 0)%Z eqn:E; destruct (startDate - now' <=? 0)%Z eqn:E'.
      * eexists _, _. split; [reflexivity|]. split; [reflexivity|]. apply Qle_refl.
      * apply Z.leb_le in E. apply Z.leb_gt in E'. lia.
      * rewrite (card_progress_waiting _ _ _ (waiting_state _)).
        eexists _, _. split; [reflexivity|]. split; [reflexivity|].
        eapply Qle_trans; [apply clamp_bounds|]. discriminate.
      * rewrite !(card_progress_waiting _ _ _ (waiting_state _)).
        eexists _, _. split; [reflexivity|]. split; [reflexivity|].
        apply clamp_mono, pct_antitone, Q.min_le_compat_r.
        rewrite <- Zle_Qle. lia.
  - intros ->. reflexivity.
  - intros Hl. rewrite (useCountdown_invalid _ _ Hc Hl). reflexivity.
Qed.

Lemma X11_bar_never_recedes_witness :
  exists w w',
    card_progress (useCountdown (Some 7200000%Z) (VStr "scheduled") 0) = Some (Some w)
    /\ card_progress (useCountdown (Some 7200000%Z) (VStr "scheduled") 3600000) = Some (Some w')
    /\ w <= w'.
Proof.
  apply (X11_bar_never_recedes (VStr "scheduled") 7200000 0 3600000); [discriminate | lia].
Defined.

(** X12: while a match declared neither completed nor live has not
    started, its bar stands at the floor of 3 as long as at least 6984000
    ms (116.4 minutes) are left, and above 3 from then on. *)
Theorem X12_bar_leaves_floor (status : value) (startDate now : Z) :
  status <> VStr "completed" -> status <> VStr "live" -> (now < startDate)%Z ->
  exists w,
    card_progress (useCountdown (Some startDate) status now) = Some (Some w)
    /\ ((6984000 <= startDate - now)%Z -> w == 3)
    /\ ((startDate - now < 6984000)%Z -> 3 < w).
Proof.
  intros Hc Hl Hlt.
  rewrite (useCountdown_by_time _ _ _ Hc Hl).
  destruct (startDate - now <=? 0)%Z eqn:E; [apply Z.leb_le in E; lia|].
  rewrite (card_progress_waiting _ _ _ (waiting_state _)).
  eexists. split; [reflexivity|].
  set (d := (startDate - now)%Z) in *.
  unfold Qdiv. change (/ inject_Z windowMs) with (1 # 7200000).
  change (inject_Z windowMs) with (7200000 # 1).
  split.
  - intros Hfar. apply clamp_low.
    assert (6984000 # 1 <= Qmin (inject_Z d) (7200000 # 1)).
    { apply Q.min_glb; [|discriminate].
      change (6984000 # 1) with (inject_Z 6984000). rewrite <- Zle_Qle. exact Hfar. }
    lra.
  - intros Hnear.
    assert (Hd : inject_Z d < 6984000 # 1).
    { change (6984000 # 1) with (inject_Z 6984000). rewrite <- Zlt_Qlt. exact Hnear. }
    assert (Hpos : 0 < inject_Z d).
    { change 0 with (inject_Z 0). rewrite <- Zlt_Qlt. lia. }
    assert (Hmin : Qmin (inject_Z d) (7200000 # 1) == inject_Z d).
    { apply Q.min_l. lra. }
    rewrite clamp_mid; rewrite Hmin; [lra|]. split; lra.
Qed.

Lemma X12_bar_leaves_floor_witness :
  exists w,
    card_progress (useCountdown (Some 7000000%Z) (VStr "scheduled") 0) = Some (Some w)
    /\ w == 3.
Proof.
  destruct (X12_bar_leaves_floor (VStr "scheduled") 7000000 0) as (w & H1 & H2 & _);
    [discriminate | discriminate | lia |].
  exists w. split; [exact H1|]. apply H2. lia.
Defined.

End BarFacts.

(** ** Which tab lists a match *)

Section TabFacts.

Import Resolver DayFilter Upcoming Numeral.

Lemma in_bucket_true_fields (target : date) (m : value) :
  in_bucket target m = Normal true ->
  exists (o : gmap string value) (s : string) (y mo d : Z),
    m = VObj o /\ o !! "date" = Some (VStr s)
    /\ parseInt <$> split "-" s = [Some y; Some mo; Some d]
    /\ target = Date y (mo - 1) d.
Proof.
  intros H. destruct m as [|b|q|s0|l0|o]; try discriminate.
  destruct (o !! "date") as [[|b|q|s|l0|o0]|] eqn:Hd;
    try (unfold in_bucket in H; cbn [get bind] in H; rewrite Hd in H; discriminate).
  rewrite (in_bucket_text _ _ _ Hd) in H.
  destruct (parseInt <$> split "-" s) as [|[y|] [|[mo|] [|[d|] [|e l]]]] eqn:Hp;
    try discriminate.
  injection H as H. apply andb_true_iff in H as [H Hday].
  apply andb_true_iff in H as [Hy Hm].
  apply Z.eqb_eq in Hy, Hm, Hday.
  exists o, s, y, mo, d.
  split; [reflexivity|]. split; [exact Hd|]. split; [exact Hp|].
  destruct target as [ty tm td]. simpl in *. subst. reflexivity.
Qed.

(** X14: a match object whose date is a text is accepted by the filter of
    a day exactly when the text splits on "-" into three parts that parse
    to the year, the month counted from 1 and the day of that day. *)
Theorem X14_bucket_accepts_exactly (target : date) (o : gmap string value) (s : string) :
  o !! "date" = Some (VStr s) ->
  in_bucket target (VObj o) = Normal true
  <-> parseInt <$> split "-" s
      = [Some (getFullYear target); Some (getMonth target + 1); Some (getDate target)].
Proof.
  intros Hd. rewrite (in_bucket_text _ _ _ Hd). split.
  - destruct (parseInt <$> split "-" s) as [|[y|] [|[mo|] [|[d|] [|e l]]]]; try discriminate.
    intros H. injection H as H. apply andb_true_iff in H as [H Hday].
    apply andb_true_iff in H as [Hy Hm]. apply Z.eqb_eq in Hy, Hm, Hday.
    subst. repeat f_equal. lia.
  - intros ->. rewrite !Z.eqb_refl.
    replace (getMonth target + 1 - 1) with (getMonth target) by lia.
    rewrite Z.eqb_refl. reflexivity.
Qed.

Lemma X14_bucket_accepts_exactly_witness :
  in_bucket (Date 2025 10 20) (VObj {["date" := VStr "2025-11-20T18:00"]}) = Normal true.
Proof.
  apply (X14_bucket_accepts_exactly (Date 2025 10 20) _ "2025-11-20T18:00").
  - apply lookup_singleton_eq.
  - reflexivity.
Defined.

Lemma next_day_before (d : date) : valid_date d -> before d (next_day d).
Proof.
  intros [Hm Hd]. unfold next_day, before.
  destruct (getDate d <? _) eqn:E; simpl.
  - right. split; [reflexivity|]. right. split; [reflexivity | lia].
  - destruct (getMonth d <? 11) eqn:E'; simpl.
    + right. split; [reflexivity|]. left. lia.
    + left. lia.
Qed.

Lemma before_trans (a b c : date) : before a b -> before b c -> before a c.
Proof. unfold before. intros H1 H2. lia. Qed.

Lemma before_irrefl (a : date) : ~ before a a.
Proof. unfold before. lia. Qed.

Lemma day_after_S (today : date) (i : nat) :
  day_after today (S i) = next_day (day_after today i).
Proof. reflexivity. Qed.

Lemma day_after_before (today : date) (i k : nat) :
  valid_date today -> before (day_after today i) (day_after today (i + S k)).
Proof.
  intros Hv. induction k as [|k IH].
  - replace (i + 1)%nat with (S i) by lia. rewrite day_after_S.
    apply next_day_before, day_after_valid, Hv.
  - replace (i + S (S k))%nat with (S (i + S k)) by lia. rewrite day_after_S.
    eapply before_trans; [exact IH|].
    apply next_day_before, day_after_valid, Hv.
Qed.

Lemma day_after_inj (today : date) (i j : nat) :
  valid_date today -> day_after today i = day_after today j -> i = j.
Proof.
  intros Hv Heq.
  destruct (Nat.lt_trichotomy i j) as [Hlt | [Heq' | Hgt]]; [|exact Heq'|].
  - exfalso. pose proof (day_after_before today i (j - i - 1) Hv) as H.
    replace (i + S (j - i - 1))%nat with j in H by lia.
    rewrite Heq in H. exact (before_irrefl _ H).
  - exfalso. pose proof (day_after_before today j (i - j - 1) Hv) as H.
    replace (j + S (i - j - 1))%nat with i in H by lia.
    rewrite Heq in H. exact (before_irrefl _ H).
Qed.

(** X15: the tabs are different days, so no match is listed under two of
    them. *)
Theorem X15_at_most_one_tab (today : date) (i j : nat) (m : value) :
  valid_date today ->
  in_bucket (day_after today i) m = Normal true ->
  in_bucket (day_after today j) m = Normal true ->
  i = j.
Proof.
  intros Hv Hi Hj.
  apply in_bucket_true_fields in Hi as (o & s & y & mo & d & -> & Hd & Hp & Hti).
  apply in_bucket_true_fields in Hj as (o' & s' & y' & mo' & d' & Ho & Hd' & Hp' & Htj).
  injection Ho as <-. rewrite Hd in Hd'. injection Hd' as <-.
  rewrite Hp in Hp'. injection Hp' as <- <- <-.
  apply (day_after_inj today i j Hv). congruence.
Qed.

Lemma X15_at_most_one_tab_witness :
  in_bucket (day_after (Date 2024 1 28) 2) (VObj {["date" := VStr "2024-03-01"]}) = Normal true
  /\ (forall j : nat,
         in_bucket (day_after (Date 2024 1 28) j) (VObj {["date" := VStr "2024-03-01"]})
         = Normal true -> 2%nat = j).
Proof.
  split; [reflexivity|]. intros j Hj.
  apply (X15_at_most_one_tab (Date 2024 1 28) 2 j (VObj {["date" := VStr "2024-03-01"]})).
  - unfold valid_date. simpl. vm_compute. intuition discriminate.
  - reflexivity.
  - exact Hj.
Defined.

Lemma iso_parts (d : date) :
  0 <= getFullYear d -> 0 <= getMonth d + 1 -> 0 <= getDate d ->
  parseInt <$> split "-" (iso d)
  = [Some (getFullYear d); Some (getMonth d + 1); Some (getDate d)].
Proof.
  intros Hy Hm Hd. unfold iso.
  change (padStart 2 "0" (toString (getMonth d + 1))) with (pad (Some (getMonth d + 1))).
  change (padStart 2 "0" (toString (getDate d))) with (pad (Some (getDate d))).
  rewrite !pad_field by assumption. rewrite !append_char.
  rewrite split_app by (apply numeric_no_sep; [right; reflexivity | apply toString_numeric, Hy]).
  rewrite split_app by (apply numeric_no_sep; [right; reflexivity | apply field_numeric, Hm]).
  rewrite split_no_sep by (apply numeric_no_sep; [right; reflexivity | apply field_numeric, Hd]).
  cbn [fmap list_fmap].
  rewrite toString_parseInt by exact Hy. rewrite !parseInt_field by assumption.
  reflexivity.
Qed.

Lemma iso_bucket (d target : date) (o : gmap string value) :
  0 <= getFullYear d -> valid_date d ->
  o !! "date" = Some (VStr (iso d)) ->
  in_bucket target (VObj o) = Normal true <-> target = d.
Proof.
  intros Hy [Hm Hd] Ho.
  rewrite (in_bucket_text _ _ _ Ho), iso_parts by lia.
  destruct target as [ty tm td], d as [dy dm dd]. simpl in *. split.
  - intros H. injection H as H. apply andb_true_iff in H as [H Hday].
    apply andb_true_iff in H as [Hyear Hmonth].
    apply Z.eqb_eq in Hyear, Hmonth, Hday. f_equal; lia.
  - intros H. injection H as -> -> ->. rewrite !Z.eqb_refl.
    replace (dm + 1 - 1) with dm by lia. rewrite Z.eqb_refl. reflexivity.
Qed.

(** X16: the date text [iso] writes for a day (of a year from 0 on) is
    read back by the day filter as that very day: a match dated [iso(d)] is
    accepted by the filter of a day exactly when that day is [d]. *)
Theorem X16_iso_reads_back (d target : date) (o : gmap string value) :
  0 <= getFullYear d -> valid_date d ->
  o !! "date" = Some (VStr (iso d)) ->
  in_bucket target (VObj o) = Normal true <-> target = d.
Proof.
  intros Hy [Hm Hd] Ho.
  rewrite (in_bucket_text _ _ _ Ho), iso_parts by lia.
  destruct target as [ty tm td], d as [dy dm dd]. simpl in *. split.
  - intros H. injection H as H. apply andb_true_iff in H as [H Hday].
    apply andb_true_iff in H as [Hyear Hmonth].
    apply Z.eqb_eq in Hyear, Hmonth, Hday. f_equal; lia.
  - intros H. injection H as -> -> ->. rewrite !Z.eqb_refl.
    replace (dm + 1 - 1) with dm by lia. rewrite Z.eqb_refl. reflexivity.
Qed.

Lemma X16_iso_reads_back_witness :
  in_bucket (Date 2025 0 5) (VObj {["date" := VStr (iso (Date 2025 0 5))]}) = Normal true.
Proof.
  apply (X16_iso_reads_back (Date 2025 0 5) (Date 2025 0 5)).
  - simpl. lia.
  - unfold valid_date. simpl. vm_compute. intuition discriminate.
  - apply lookup_singleton_eq.
  - reflexivity.
Defined.

Lemma day_after_year (today : date) (i : nat) :
  valid_date today -> getFullYear today <= getFullYear (day_after today i).
Proof.
  intros Hv. induction i as [|i IH]; [simpl; lia|].
  rewrite day_after_S. unfold next_day.
  destruct (getDate _ <? _); [exact IH|].
  destruct (getMonth _ <? 11); simpl; lia.
Qed.

Lemma in_bucket_make (today : date) (i k : nat) (startTime id : string) (t1 t2 : value)
    (venue : string) (streamUrl : value) :
  valid_date today -> 0 <= getFullYear today ->
  in_bucket (day_after today i) (make today k startTime id t1 t2 venue streamUrl)
  = Normal (Nat.eqb i k).
Proof.
  intros Hv Hy. unfold make.
  destruct (Nat.eqb i k) eqn:E.
  - apply Nat.eqb_eq in E. subst.
    apply (iso_bucket (day_after today k)).
    + pose proof (day_after_year today k Hv). lia.
    + apply day_after_valid, Hv.
    + reflexivity.
    + reflexivity.
  - apply Nat.eqb_neq in E.
    destruct (in_bucket _ _) as [[|]|e] eqn:Hb.
    + exfalso. apply E.
      apply (iso_bucket (day_after today k)) in Hb.
      * apply (day_after_inj today i k Hv Hb).
      * pose proof (day_after_year today k Hv). lia.
      * apply day_after_valid, Hv.
      * reflexivity.
    + reflexivity.
    + exfalso. unfold in_bucket in Hb. cbn [get bind] in Hb.
      rewrite lookup_insert_ne in Hb by discriminate.
      rewrite lookup_insert_eq in Hb.
      destruct (negb _); discriminate.
Qed.

(** X17: when the API answers with an empty list or with nothing, the
    page lists the demo matches, each under the tab of its own day and
    under no other: whatever day today is (in a year from 0 on), the first
    tab lists the first two, each of the next four tabs the next one, and
    the last two tabs none. *)
Theorem X17_demo_matches_by_tab (today : date) (apiMatches : value) (i : nat) :
  valid_date today -> 0 <= getFullYear today -> (i < 7)%nat ->
  apiMatches = VArr [] \/ apiMatches = VNull ->
  listed apiMatches (demoMatches today) (days today) i
  = Normal (match i with
            | 0 => take 2 (demoMatches today)
            | 1 | 2 | 3 | 4 => take 1 (drop (S i) (demoMatches today))
            | _ => []
            end%nat).
Proof.
  intros Hv Hy Hi Hapi.
  assert (Heff : listed apiMatches (demoMatches today) (days today) i
                 = filtered (Some (demoMatches today)) (days today) i)
    by (destruct Hapi as [-> | ->]; reflexivity).
  rewrite Heff. unfold filtered. rewrite (days_lookup today i Hi).
  unfold demoMatches. cbn [default from_option id filterM].
  rewrite !(in_bucket_make today i _ _ _ _ _ _ _ Hv Hy). cbn [bind].
  destruct i as [|[|[|[|[|[|[|i]]]]]]]; reflexivity.
Qed.

Lemma X17_demo_matches_by_tab_witness :
  listed (VArr []) (demoMatches (Date 2024 1 28)) (days (Date 2024 1 28)) 1
  = Normal (take 1 (drop 2 (demoMatches (Date 2024 1 28)))).
Proof.
  apply (X17_demo_matches_by_tab (Date 2024 1 28) (VArr []) 1).
  - unfold valid_date. simpl. vm_compute. intuition discriminate.
  - simpl. lia.
  - lia.
  - left. reflexivity.
Defined.

Lemma in_bucket_no_date (target : date) (m : value) :
  ~ has_date_text m -> in_bucket target m = Throw TypeError.
Proof.
  intros Hno. destruct m as [|b|q|s0|l0|o]; try reflexivity.
  unfold in_bucket. cbn [get bind].
  destruct (o !! "date") as [[|b|q|s|l0|o0]|] eqn:Hd; try reflexivity.
  exfalso. apply Hno. exists o, s. split; [reflexivity | exact Hd].
Qed.

Lemma in_bucket_throws_TypeError (target : date) (m : value) (e : exn) :
  in_bucket target m = Throw e -> e = TypeError.
Proof.
  unfold in_bucket.
  destruct m as [|b|q|s0|l0|o]; cbn [get bind]; try congruence.
  destruct (o !! "date") as [[|b|q|s|l0|o0]|]; try congruence.
  destruct (negb _); discriminate.
Qed.

Lemma filterM_some_throw {A} (p : A -> completion bool) (l : list A) :
  (forall x e, p x = Throw e -> e = TypeError) ->
  Exists (fun x => p x = Throw TypeError) l ->
  filterM p l = Throw TypeError.
Proof.
  intros Honly. induction 1 as [x l Hx | x l _ IH]; simpl.
  - rewrite Hx. reflexivity.
  - destruct (p x) as [b|e] eqn:Hp; simpl.
    + rewrite IH. reflexivity.
    + rewrite (Honly x e Hp). reflexivity.
Qed.

(** X18: one match without a date text (no date, a date that is not a
    text, or a null entry) anywhere in the listing makes the filter of
    every tab throw a TypeError: the page lists nothing at all. *)
Theorem X18_match_without_date_throws (today : date) (i : nat) (effectiveMatches : list value) :
  (i < 7)%nat ->
  Exists (fun m => ~ has_date_text m) effectiveMatches ->
  filtered (Some effectiveMatches) (days today) i = Throw TypeError.
Proof.
  intros Hi Hbad. unfold filtered. rewrite (days_lookup today i Hi).
  cbn [default from_option id].
  apply filterM_some_throw.
  - intros x e. apply in_bucket_throws_TypeError.
  - eapply Exists_impl; [exact Hbad|]. intros m. apply in_bucket_no_date.
Qed.

Lemma X18_match_without_date_throws_witness :
  filtered (Some [VObj {["date" := VStr "2024-02-28"]}; VObj {["venue" := VStr "TU"]}])
           (days (Date 2024 1 28)) 0 = Throw TypeError.
Proof.
  apply (X18_match_without_date_throws (Date 2024 1 28) 0); [lia|].
  apply Exists_cons_tl, Exists_cons_hd.
  intros (o & s & Ho & Hd). injection Ho as <-.
  rewrite lookup_singleton_ne in Hd by discriminate. discriminate.
Defined.

End TabFacts.

(** ** The admin list under its updaters *)

Section AdminListFacts.

Import Admin AdminList LivePage.

Lemma strict_eq_u_right_refl a b : strict_eq_u a b = true -> strict_eq_u b b = true.
Proof.
  destruct a as [[]|], b as [[]|]; simpl; try discriminate; intros _; try reflexivity.
  - apply Bool.eqb_reflx.
  - apply Qeq_bool_iff. reflexivity.
  - apply String.eqb_refl.
Qed.

Lemma same_id_demoted (x u : gmap string value) :
  same_id (<["status" := VStr "scheduled"]> x) u = same_id x u.
Proof. unfold same_id. rewrite lookup_insert_ne by discriminate. reflexivity. Qed.

Lemma reconcile_objects (u : gmap string value) (prev : list (gmap string value)) :
  reconcile (VObj u) (VObj <$> prev)
  = Normal (VObj <$> ((fun x : gmap string value =>
                         if same_id x u then u
                         else if is_live x then <["status" := VStr "scheduled"]> x else x)
                      <$> prev)).
Proof.
  unfold reconcile. induction prev as [|x l IH]; [reflexivity|].
  cbn [fmap list_fmap mapM]. rewrite reconcile_entry_object. cbn [bind].
  fold (fmap (M := list) VObj l). rewrite IH. reflexivity.
Qed.

(** X19: in the list the set-live updater returns, the only entry that can
    have status 'live' is the match the server returned: every other entry
    that was live is demoted, also when identifiers repeat; and when the
    returned match is not live, no entry is. *)
Theorem X19_only_returned_match_live (prev : list (gmap string value)) (u : gmap string value) :
  exists next : list (gmap string value),
    reconcile (VObj u) (VObj <$> prev) = Normal (VObj <$> next)
    /\ (forall y, y ∈ next -> is_live y = true -> y = u)
    /\ (is_live u = false -> Forall (fun y => is_live y = false) next).
Proof.
  eexists. split; [apply reconcile_objects|].
  assert (Hstep : forall x : gmap string value,
             is_live (if same_id x u then u
                      else if is_live x then <["status" := VStr "scheduled"]> x else x) = true ->
             (if same_id x u then u
              else if is_live x then <["status" := VStr "scheduled"]> x else x) = u).
  { intros x. destruct (same_id x u); [reflexivity|].
    destruct (is_live x) eqn:E; [rewrite demoted_not_live | rewrite E]; discriminate. }
  split.
  - intros y Hy Hlive. apply list_elem_of_fmap in Hy as (x & -> & _).
    apply Hstep, Hlive.
  - intros Hu. apply Forall_forall. intros y Hy.
    destruct (is_live y) eqn:E; [|reflexivity].
    apply list_elem_of_fmap in Hy as (x & -> & _).
    rewrite (Hstep x E) in E. congruence.
Qed.

(** X20: running the set-live updater a second time with the same match
    changes nothing. *)
Theorem X20_set_live_idempotent (prev : list (gmap string value)) (u : gmap string value) :
  exists next : list (gmap string value),
    reconcile (VObj u) (VObj <$> prev) = Normal (VObj <$> next)
    /\ reconcile (VObj u) (VObj <$> next) = Normal (VObj <$> next).
Proof.
  eexists. split; [apply reconcile_objects|].
  rewrite reconcile_objects. do 2 f_equal.
  rewrite <- list_fmap_compose. apply list_fmap_ext. intros _ x _. simpl.
  destruct (same_id x u) eqn:Hsame.
  - assert (Hu : same_id u u = true)
      by (unfold same_id in *; eapply strict_eq_u_right_refl; exact Hsame).
    rewrite Hu. reflexivity.
  - destruct (is_live x) eqn:Hlive.
    + rewrite same_id_demoted, Hsame, demoted_not_live. reflexivity.
    + rewrite Hsame, Hlive. reflexivity.
Qed.

Lemma find_live_objects (l : list (gmap string value)) :
  find_live (VObj <$> l) = Normal (VObj <$> List.find is_live l).
Proof.
  induction l as [|x l IH]; [reflexivity|].
  cbn [fmap list_fmap find_live get bind List.find].
  fold (fmap (M := list) VObj l). fold (is_live x).
  destruct (is_live x); [reflexivity | exact IH].
Qed.

(** X21: applied to the list the set-live updater returns, the selection
    of the Live page (the first entry with status 'live') is the match the
    server returned, provided that match is live and the list had an entry
    with its identifier. *)
Theorem X21_live_page_selects_returned_match (prev : list (gmap string value))
    (u : gmap string value) :
  is_live u = true ->
  Exists (fun x => same_id x u = true) prev ->
  exists next : list value,
    reconcile (VObj u) (VObj <$> prev) = Normal next
    /\ find_live next = Normal (Some (VObj u)).
Proof.
  intros Hu Hex. eexists. split; [apply reconcile_objects|].
  rewrite find_live_objects. do 2 f_equal.
  set (step := fun x : gmap string value =>
                 if same_id x u then u
                 else if is_live x then <["status" := VStr "scheduled"]> x else x).
  destruct (List.find is_live (step <$> prev)) as [y|] eqn:Hfind.
  - apply List.find_some in Hfind as [Hin Hlive].
    apply list_elem_of_In, list_elem_of_fmap in Hin as (x & -> & _).
    f_equal. unfold step in *. destruct (same_id x u); [reflexivity|].
    destruct (is_live x) eqn:E; [rewrite demoted_not_live in Hlive | rewrite E in Hlive];
      discriminate.
  - exfalso. apply Exists_exists in Hex as (x & Hx & Hsame).
    assert (Hstep : step x = u) by (unfold step; rewrite Hsame; reflexivity).
    pose proof (List.find_none _ _ Hfind (step x)) as Hnone.
    rewrite Hstep in Hnone. rewrite Hnone in Hu; [discriminate|].
    rewrite <- Hstep. apply list_elem_of_In, list_elem_of_fmap. exists x.
    split; [reflexivity | exact Hx].
Qed.

Lemma X21_live_page_selects_returned_match_witness :
  let m1 : gmap string value := {["_id" := VStr "m1"; "status" := VStr "live"]} in
  let m2 : gmap string value := {["_id" := VStr "m2"; "status" := VStr "scheduled"]} in
  let u : gmap string value := {["_id" := VStr "m2"; "status" := VStr "live"]} in
  exists next : list value,
    reconcile (VObj u) (VObj <$> [m1; m2]) = Normal next
    /\ find_live next = Normal (Some (VObj u)).
Proof.
  intros m1 m2 u.
  apply (X21_live_page_selects_returned_match [m1; m2] u); [reflexivity|].
  apply Exists_cons_tl, Exists_cons_hd. reflexivity.
Defined.

Lemma filter_fmap {A B : Type} (f : A -> B) (q : B -> bool) (l : list A) :
  List.filter q (f <$> l) = f <$> List.filter (fun x => q (f x)) l.
Proof.
  induction l as [|x l IH]; [reflexivity|].
  cbn [fmap list_fmap List.filter]. fold (fmap (M := list) f l). rewrite IH.
  destruct (q (f x)); reflexivity.
Qed.

Lemma after_update_objects (updated : gmap string value) (prev : list (gmap string value)) :
  after_update (VObj updated) (VObj <$> prev)
  = Normal (VObj <$> ((fun x : gmap string value => if same_id x updated then updated else x)
                      <$> prev)).
Proof.
  unfold after_update.
  rewrite (mapM_pure _ (fun m : value =>
                          if strict_eq_u (get_opt (Some m) "_id") (updated !! "_id")
                          then VObj updated else m)).
  - f_equal. rewrite <- !list_fmap_compose. apply list_fmap_ext.
    intros _ x _. simpl. unfold same_id.
    destruct (strict_eq_u (x !! "_id") (updated !! "_id")); reflexivity.
  - apply Forall_forall. intros v Hv.
    apply list_elem_of_fmap in Hv as (x & -> & _). reflexivity.
Qed.

Lemma after_remove_objects (id : option value) (prev : list (gmap string value)) :
  after_remove id (VObj <$> prev)
  = Normal (VObj <$> List.filter (fun x : gmap string value =>
                                    negb (strict_eq_u (x !! "_id") id)) prev).
Proof.
  unfold after_remove.
  rewrite (filterM_pure _ (fun m : value =>
                             negb (strict_eq_u (get_opt (Some m) "_id") id))).
  - f_equal.
    exact (filter_fmap VObj
             (fun m : value => negb (strict_eq_u (get_opt (Some m) "_id") id)) prev).
  - apply Forall_forall. intros v Hv.
    apply list_elem_of_fmap in Hv as (x & -> & _). reflexivity.
Qed.

(** X22: the updater run after saving an edited match keeps the length of
    the list, puts the returned match in place of every entry with its
    identifier and leaves every other entry as it was, live ones included;
    when no entry has that identifier the list is unchanged. *)
Theorem X22_update_touches_only_its_match (prev : list (gmap string value))
    (updated : gmap string value) :
  exists next : list (gmap string value),
    after_update (VObj updated) (VObj <$> prev) = Normal (VObj <$> next)
    /\ length next = length prev
    /\ (forall (i : nat) (x : gmap string value),
           prev !! i = Some x ->
           next !! i = Some (if same_id x updated then updated else x))
    /\ (fresh_id (updated !! "_id") prev -> next = prev).
Proof.
  eexists. split; [apply after_update_objects|]. split; [apply length_fmap|]. split.
  - intros i x Hx. rewrite list_lookup_fmap, Hx. reflexivity.
  - intros Hfresh. unfold fresh_id in Hfresh.
    induction Hfresh as [|x l Hx _ IH]; [reflexivity|].
    cbn [fmap list_fmap]. unfold same_id at 1. rewrite Hx. f_equal. exact IH.
Qed.

(** X23: the updater run after a deletion removes every entry with the
    deleted identifier and nothing else: what is left is a sublist of the
    list, in the same order, without any entry of that identifier, and the
    list itself when no entry had it. *)
Theorem X23_remove_drops_exactly (prev : list (gmap string value)) (id : option value) :
  exists next : list (gmap string value),
    after_remove id (VObj <$> prev) = Normal (VObj <$> next)
    /\ sublist next prev
    /\ fresh_id id next
    /\ (forall x, x ∈ prev -> strict_eq_u (x !! "_id") id = false -> x ∈ next)
    /\ (fresh_id id prev -> next = prev).
Proof.
  eexists. split; [apply after_remove_objects|].
  set (keep := fun x : gmap string value => negb (strict_eq_u (x !! "_id") id)).
  split; [|split; [|split]].
  - induction prev as [|x l IH]; simpl; [constructor|].
    destruct (keep x); [apply sublist_skip | apply sublist_cons]; exact IH.
  - apply Forall_forall. intros x Hx.
    apply list_elem_of_In, List.filter_In in Hx as [_ Hx].
    unfold keep in Hx. apply negb_true_iff in Hx. exact Hx.
  - intros x Hx Hne. apply list_elem_of_In, List.filter_In.
    split; [apply list_elem_of_In, Hx|]. unfold keep. rewrite Hne. reflexivity.
  - intros Hfresh. apply filter_all_true.
    eapply Forall_impl; [exact Hfresh|]. intros x Hx. unfold keep. rewrite Hx. reflexivity.
Qed.

(** X24: creating a match whose identifier is new to the list and then
    deleting that identifier gives the list back. *)
Theorem X24_create_then_remove_restores (prev : list (gmap string value))
    (created : gmap string value) :
  primitive (created !! "_id") = true ->
  fresh_id (created !! "_id") prev ->
  after_remove (created !! "_id") (after_create (VObj created) (VObj <$> prev))
  = Normal (VObj <$> prev).
Proof.
  intros Hprim Hfresh. unfold after_create.
  change (VObj created :: (VObj <$> prev)) with (VObj <$> (created :: prev)).
  rewrite after_remove_objects. do 2 f_equal. simpl.
  rewrite (strict_eq_u_refl _ Hprim). simpl.
  apply filter_all_true. eapply Forall_impl; [exact Hfresh|].
  intros x ->. reflexivity.
Qed.

Lemma X24_create_then_remove_restores_witness :
  after_remove (Some (VStr "m2"))
    (after_create (VObj {["_id" := VStr "m2"]}) [VObj {["_id" := VStr "m1"]}])
  = Normal [VObj {["_id" := VStr "m1"]}].
Proof.
  assert (Hfresh : fresh_id (({["_id" := VStr "m2"]} : gmap string value) !! "_id")
                            [{["_id" := VStr "m1"]}])
    by (constructor; [reflexivity | constructor]).
  exact (X24_create_then_remove_restores [{["_id" := VStr "m1"]}] {["_id" := VStr "m2"]}
           eq_refl Hfresh).
Defined.

End AdminListFacts.

(** ** Logging in, and the guard again *)

Section LoginFacts.

Import Guard Login Api.

Context {A : Type}.

Lemma submit_LoggedIn answer state_from t u dest :
  submit answer state_from = LoggedIn t u dest ->
  dest = destination u (from_state state_from).
Proof.
  unfold submit.
  destruct (r <- answer;; token <- get (Some r) "token";; user <- get (Some r) "user";;
            Normal (token, user)) as [[t' u']|e]; [|discriminate].
  intros H. injection H as <- <- <-. reflexivity.
Qed.

Lemma is_admin_strict (u : option value) :
  strict_eq_u (get_opt u "role") (Some (VStr "admin")) = true <-> is_admin u.
Proof.
  unfold is_admin. destruct (get_opt u "role") as [v|]; simpl.
  - rewrite strict_eq_str. split; congruence.
  - split; discriminate.
Qed.

(** X25: once logged in, an administrator is sent inside the admin area:
    back to the path they came from when that path starts with "/admin",
    else to "/admin"; everybody else is sent to "/live". *)
Theorem X25_login_destination (answer : completion value) (state_from : option string)
    (t u : option value) (dest : string) :
  submit answer state_from = LoggedIn t u dest ->
  (is_admin u ->
   String.prefix "/admin" dest = true
   /\ (String.prefix "/admin" (from_state state_from) = true -> dest = from_state state_from)
   /\ (String.prefix "/admin" (from_state state_from) = false -> dest = "/admin"))
  /\ (~ is_admin u -> dest = "/live").
Proof.
  intros H. apply submit_LoggedIn in H. subst dest. unfold destination.
  destruct (strict_eq_u (get_opt u "role") (Some (VStr "admin"))) eqn:Hrole.
  - split; [|intros Hn; exfalso; apply Hn, is_admin_strict, Hrole].
    intros _.
    destruct (String.prefix "/admin" (from_state state_from)) eqn:Hp.
    + assert (Hne : String.eqb (from_state state_from) "" = false).
      { destruct (from_state state_from); [discriminate | reflexivity]. }
      rewrite Hne. simpl. rewrite Hp. repeat split; auto; discriminate.
    + rewrite andb_false_r. repeat split; auto; discriminate.
  - split; [|reflexivity].
    intros Hadm. apply is_admin_strict in Hadm. congruence.
Qed.

Lemma X25_login_destination_witness :
  submit (Normal (VObj {["token" := VStr "t"; "user" := VObj {["role" := VStr "admin"]}]}))
         (Some "/admin/matches")
  = LoggedIn (Some (VStr "t")) (Some (VObj {["role" := VStr "admin"]})) "/admin/matches"
  /\ String.prefix "/admin" "/admin/matches" = true.
Proof.
  split; [reflexivity|].
  apply (X25_login_destination
           (Normal (VObj {["token" := VStr "t"; "user" := VObj {["role" := VStr "admin"]}]}))
           (Some "/admin/matches") (Some (VStr "t"))
           (Some (VObj {["role" := VStr "admin"]})) "/admin/matches").
  - reflexivity.
  - reflexivity.
Defined.

(** X26: the guard and the login page close the loop: when the guard
    turns a visitor away from a path of the admin area and the login then
    answers with a token and an administrator, the login page navigates
    back to that very path, where the guard now renders the admin
    content. *)
Theorem X26_guard_login_round_trip (token user : option value) (pathname : string)
    (children : A) (to : string) (replace : bool) (from : string)
    (answer : completion value) (t u : option value) (dest : string) :
  RequireAdmin token user pathname children = Navigate to replace from ->
  String.prefix "/admin" pathname = true ->
  submit answer (Some from) = LoggedIn t u dest ->
  is_admin u -> truthy t = true ->
  to = "/login" /\ dest = pathname
  /\ RequireAdmin t u dest children = Children children.
Proof.
  intros Hguard Hp Hsubmit Hadm Ht.
  unfold RequireAdmin in Hguard.
  destruct (negb (truthy token) || _); [|discriminate].
  injection Hguard as <- <- <-.
  apply submit_LoggedIn in Hsubmit.
  assert (Hfrom : from_state (Some pathname) = pathname).
  { unfold from_state. destruct pathname; [discriminate | reflexivity]. }
  rewrite Hfrom in Hsubmit. unfold destination in Hsubmit.
  rewrite (proj2 (is_admin_strict u) Hadm) in Hsubmit.
  assert (Hne : String.eqb pathname "" = false) by (destruct pathname; [discriminate | reflexivity]).
  rewrite Hne, Hp in Hsubmit. simpl in Hsubmit. subst dest.
  split; [reflexivity|]. split; [reflexivity|].
  unfold RequireAdmin. rewrite Ht, (proj2 (is_admin_strict u) Hadm). reflexivity.
Qed.

(** X27: whatever goes wrong with the login request, the page shows the
    same message: a status outside 200-299 (its body is not shown), a
    failed fetch, and also a 204 answer, which carries no token. *)
Theorem X27_failed_login_message (state_from : option string) :
  (forall res : response,
      ~ 200 <= status res <= 299 ->
      submit (request (Normal res)) state_from = Failed "Invalid credentials")
  /\ (forall e : exn, submit (request (Throw e)) state_from = Failed "Invalid credentials")
  /\ (forall res : response,
         status res = 204 ->
         submit (request (Normal res)) state_from = Failed "Invalid credentials").
Proof.
  split; [|split].
  - intros res Hbad. unfold request. cbn [bind].
    destruct (ok res) eqn:Hok; [apply ok_iff in Hok; contradiction|]. reflexivity.
  - intros e. reflexivity.
  - intros res H204. unfold request. cbn [bind].
    assert (Hok : ok res = true) by (apply ok_iff; lia).
    rewrite Hok, H204. reflexivity.
Qed.

Lemma X27_failed_login_message_witness :
  submit (request (Normal (Response 401 "Unauthorized" "wrong password" None))) None
  = Failed "Invalid credentials".
Proof.
  apply (proj1 (X27_failed_login_message None)). simpl. lia.
Defined.

End LoginFacts.

Lemma X26_guard_login_round_trip_witness :
  Guard.RequireAdmin None None "/admin" tt = Guard.Navigate "/login" true "/admin"
  /\ Guard.RequireAdmin (Some (VStr "t")) (Some (VObj {["role" := VStr "admin"]})) "/admin" tt
     = Guard.Children tt.
Proof.
  split; [reflexivity|].
  apply (X26_guard_login_round_trip None None "/admin" tt "/login" true "/admin"
           (Normal (VObj {["token" := VStr "t"; "user" := VObj {["role" := VStr "admin"]}]}))
           (Some (VStr "t")) (Some (VObj {["role" := VStr "admin"]})) "/admin");
    reflexivity.
Defined.

(** ** The session across reloads *)

Section SessionFacts.

Import Session Guard.



(** X29: whatever localStorage holds under the two session keys, the
    initial state never has an empty token or a falsy user, and a user
    text that does not parse gives no user; after [logout] both keys are
    removed, and the guard turns the visitor away, before and after a
    reload. *)
Theorem X29_logout_and_clean_start (c : cells) (s : session) (pathname : string) :
  token (init c) <> Some ""
  /\ (user (init c) = None \/ truthy (user (init c)) = true)
  /\ (forall raw, user_text c = Some (Storage.Malformed raw) -> user (init c) = None)
  /\ persist (logout s) = Cells None None
  /\ RequireAdmin (token_value (logout s)) (user (logout s)) pathname tt
     = Navigate "/login" true pathname
  /\ RequireAdmin (token_value (init (persist (logout s)))) (user (init (persist (logout s))))
                  pathname tt
     = Navigate "/login" true pathname.
Proof.
  split; [|split; [|split; [|split; [|split]]]]; try reflexivity.
  - unfold init. cbn [token]. destruct (token_text c) as [t|]; [|discriminate].
    destruct (String.eqb t "") eqn:E; [discriminate|].
    apply String.eqb_neq in E. congruence.
  - unfold init. cbn [user]. destruct (user_text c) as [[raw|doc]|].
    + left. reflexivity.
    + cbn [Storage.JSON_parse]. destruct (truthy (Some doc)) eqn:E.
      * right. exact E.
      * left. reflexivity.
    + left. reflexivity.
  - intros raw Hraw. unfold init. cbn [user]. rewrite Hraw. reflexivity.
Qed.

End SessionFacts.

(** ** What the client sends *)

Section ClientFacts.

Import Client.

(** X30: a request made without headers of its own carries the JSON
    content type, and the bearer token exactly when localStorage holds a
    non-empty token that can be read; a request made with headers of its
    own carries those headers and nothing else, so the token only when the
    caller put it there. *)
Theorem X30_authorization_header (readable : bool) (token_text : option string) (o : options) :
  let sent := init_headers (fetch_init (getToken readable token_text) o) in
  (headers o = None ->
   sent !! "Content-Type" = Some "application/json"
   /\ (forall t, readable = true -> token_text = Some t -> t <> "" ->
                 sent !! "Authorization" = Some ("Bearer " +:+ t))
   /\ (readable = false \/ token_text = None \/ token_text = Some "" ->
       sent !! "Authorization" = None))
  /\ (forall h, headers o = Some h -> sent = h).
Proof.
  cbv zeta. unfold fetch_init. cbn [init_headers]. split.
  - intros Hh. unfold merged_headers. rewrite Hh. cbn [default from_option id].
    rewrite (left_id_L ∅ (∪)). split; [|split].
    + destruct (getToken readable token_text).
      * rewrite lookup_insert_ne by discriminate. apply lookup_singleton_eq.
      * apply lookup_singleton_eq.
    + intros t -> -> Hne. unfold getToken. apply String.eqb_neq in Hne. rewrite Hne.
      apply lookup_insert_eq.
    + intros Hnone.
      assert (Hget : getToken readable token_text = None).
      { unfold getToken. destruct Hnone as [-> | [-> | ->]]; [reflexivity | |].
        - destruct readable; reflexivity.
        - destruct readable; reflexivity. }
      rewrite Hget. apply lookup_singleton_ne. discriminate.
  - intros h ->. reflexivity.
Qed.

Lemma X30_authorization_header_witness :
  init_headers (fetch_init (getToken true (Some "abc")) (Options (Some "POST") None None))
  !! "Authorization" = Some "Bearer abc".
Proof.
  apply (X30_authorization_header true (Some "abc") (Options (Some "POST") None None));
    [reflexivity | reflexivity | reflexivity | discriminate].
Defined.

End ClientFacts.

(** ** Instances *)

Section Instances.

Import Admin AdminList Session Guard.

Lemma X19_only_returned_match_live_witness :
  let m1 : gmap string value := {["_id" := VStr "m1"; "status" := VStr "live"]} in
  let u : gmap string value := {["_id" := VStr "m2"; "status" := VStr "completed"]} in
  exists next : list (gmap string value),
    reconcile (VObj u) (VObj <$> [m1; m1]) = Normal (VObj <$> next)
    /\ Forall (fun y => is_live y = false) next.
Proof.
  intros m1 u.
  destruct (X19_only_returned_match_live [m1; m1] u) as (next & Hrun & _ & Hnone).
  exists next. split; [exact Hrun|]. apply Hnone. reflexivity.
Defined.

Lemma X22_update_touches_only_its_match_witness :
  let m1 : gmap string value := {["_id" := VStr "m1"; "status" := VStr "live"]} in
  let up : gmap string value := {["_id" := VStr "m9"; "status" := VStr "live"]} in
  exists next : list (gmap string value),
    after_update (VObj up) (VObj <$> [m1]) = Normal (VObj <$> next) /\ next = [m1].
Proof.
  intros m1 up.
  destruct (X22_update_touches_only_its_match [m1] up) as (next & Hrun & _ & _ & Hsame).
  exists next. split; [exact Hrun|]. apply Hsame.
  constructor; [reflexivity | constructor].
Defined.

Lemma X23_remove_drops_exactly_witness :
  let m1 : gmap string value := {["_id" := VStr "m1"]} in
  let m2 : gmap string value := {["_id" := VStr "m2"]} in
  exists next : list (gmap string value),
    after_remove (Some (VStr "m1")) (VObj <$> [m1; m2; m1]) = Normal (VObj <$> next)
    /\ m2 ∈ next /\ fresh_id (Some (VStr "m1")) next.
Proof.
  intros m1 m2.
  destruct (X23_remove_drops_exactly [m1; m2; m1] (Some (VStr "m1")))
    as (next & Hrun & _ & Hfresh & Hkeep & _).
  exists next. split; [exact Hrun|]. split; [|exact Hfresh].
  apply Hkeep; [|reflexivity]. apply elem_of_cons. right. apply elem_of_cons. left. reflexivity.
Defined.

Lemma X29_logout_and_clean_start_witness :
  user (init (Cells (Some "abc") (Some (Storage.Malformed "{role")))) = None.
Proof.
  destruct (X29_logout_and_clean_start
              (Cells (Some "abc") (Some (Storage.Malformed "{role")))
              (Session_ None None) "/admin") as (_ & _ & H & _).
  apply (H "{role"). reflexivity.
Defined.

End Instances.
